(** * The recommendation scorer of the UPI dashboard (src/app.js)

    A shallow embedding of [generateRecommendation] and of the two tables of
    [appData] it reads, with the properties of the scorer proved over it.

    JavaScript numbers are IEEE 754 binary64 values; they are modelled by
    Rocq's primitive floats, so every product, quotient and comparison below
    is the one the engine performs.  The tables are object literals: indexing
    one finds its own properties and, for a name it does not have, the
    properties of [Object.prototype]; only a name found in neither place
    reads as [undefined].

    Around the scorer the file also embeds the decisions of the page: the
    confidence mark of [displayRecommendationResults], the validation of
    the submit handler, the click handler of [initializeNavigation] over
    the classes of the elements, and [updateUserProfile] with
    [updateSpendingChart], the draws of [Math.random] being an argument. *)

From Stdlib Require Import ZArith Floats Ascii String Lia.
From stdpp Require Import gmap strings.

Set Warnings "-inexact-float".

Local Open Scope string_scope.
Local Open Scope Z_scope.

(** ** The built-in operations the scorer calls *)

Module JS.

(** A property value of the request object: form fields are strings, a
    field that was left out is [undefined]. *)
Inductive value : Type :=
| undefined
| str (s : string).

Definition ToString (v : value) : string :=
  match v with
  | undefined => "undefined"
  | str s => s
  end.

(** [a === b] where [a] is known to be a string. *)
Definition strict_eq_string (a : string) (b : value) : bool :=
  match b with
  | undefined => false
  | str s => String.eqb a s
  end.

(** [a === b] where [a] is a string or [undefined]. *)
Definition strict_eq (a : option string) (b : value) : bool :=
  match a with
  | Some s => strict_eq_string s b
  | None => match b with undefined => true | str _ => false end
  end.

(** A string or [undefined] as a value, and in a template literal. *)
Definition value_of (a : option string) : value :=
  match a with
  | Some s => str s
  | None => undefined
  end.

Definition isNaN (x : float) : bool := is_nan x.

(** [ToBoolean] on numbers: [0], [-0] and [NaN] are falsy. *)
Definition ToBoolean (x : float) : bool :=
  negb ((x =? 0)%float || isNaN x).

(** [ToNumber] of a number or [undefined]: [undefined] becomes [NaN]. *)
Definition ToNumber (x : option float) : float :=
  match x with
  | Some f => f
  | None => nan
  end.

(** *** Indexing an object literal *)

(** The properties of [Object.prototype], which an object literal inherits:
    eleven functions and the accessor [__proto__], whose value is the
    prototype itself. *)
Definition Object_prototype : list string :=
  [ "constructor"; "hasOwnProperty"; "isPrototypeOf"; "propertyIsEnumerable";
    "toLocaleString"; "toString"; "valueOf"; "__defineGetter__";
    "__defineSetter__"; "__lookupGetter__"; "__lookupSetter__"; "__proto__" ].

(** What [table[key]] yields: the value of an own property, an object
    inherited under that name, or [undefined]. *)
Inductive lookup (A : Type) : Type :=
| own (a : A)
| inherited (name : string)
| absent.

Arguments own {A} a.
Arguments inherited {A} name.
Arguments absent {A}.

Definition get {A : Type} (table : gmap string A) (key : string) : lookup A :=
  match table !! key with
  | Some a => own a
  | None =>
      if bool_decide (key ∈ Object_prototype) then inherited key else absent
  end.

(** [o.f] where [o] is what a lookup found and [f] a field of the table's
    entries: the inherited objects have no such property. *)
Definition field {A B : Type} (f : A -> B) (o : lookup A) : option B :=
  match o with
  | own a => Some (f a)
  | inherited _ => None
  | absent => None
  end.

(** [ToNumber] of what a lookup in a table of numbers found: an inherited
    object converts to a string that is no numeral, hence to [NaN]. *)
Definition ToNumber_lookup (x : lookup float) : float :=
  match x with
  | own f => f
  | inherited _ => nan
  | absent => nan
  end.

(** A number, or an object inherited from [Object.prototype]. *)
Inductive numeric : Type :=
| number (x : float)
| object (name : string).

(** [x || y] where [x] is what a lookup in a table of numbers found and [y]
    a number: objects are truthy. *)
Definition or_default (x : lookup float) (y : float) : numeric :=
  match x with
  | own f => number (if ToBoolean f then f else y)
  | inherited name => object name
  | absent => number y
  end.

(** The Number for a mathematical integer (round to nearest, ties to even). *)
Definition of_Z (z : Z) : float :=
  SF2Prim (binary_normalize prec emax z 0 false).

(** [⌊ ±m·2^e + 1/2 ⌋] for [e < 0]. *)
Definition round_half_up (s : bool) (m : positive) (e : Z) : Z :=
  let sm := if s then Z.neg m else Z.pos m in
  (2 * sm + 2 ^ (- e)) / 2 ^ (1 - e).

(** [Math.round]: the closest integer, ties towards +∞; a result of zero
    keeps the sign of the argument; [NaN], the infinities and the zeros
    are returned unchanged. *)
Definition Math_round (x : float) : float :=
  match Prim2SF x with
  | S754_finite s m e =>
      if 0 <=? e then x
      else
        let n := round_half_up s m e in
        if n =? 0 then (if s then (-0)%float else 0%float) else of_Z n
  | _ => x
  end.

Definition is_neg_zero (x : float) : bool :=
  match Prim2SF x with
  | S754_zero true => true
  | _ => false
  end.

(** [Math.max] of two numbers: [NaN] if either is, and [+0] above [-0]. *)
Definition Math_max (x y : float) : float :=
  if isNaN x || isNaN y then nan
  else if (x <? y)%float then y
  else if (y <? x)%float then x
  else if is_neg_zero x then y else x.

(** [Math.min] of two numbers: [NaN] if either is, and [-0] below [+0]. *)
Definition Math_min (x y : float) : float :=
  if isNaN x || isNaN y then nan
  else if (x <? y)%float then x
  else if (y <? x)%float then y
  else if is_neg_zero x then x else y.

(** *** [parseInt] with no radix argument *)

(** White space among the code units below 256. *)
Definition is_white_space (a : ascii) : bool :=
  let n := nat_of_ascii a in
  (Nat.leb 9 n && Nat.leb n 13) || Nat.eqb n 32 || Nat.eqb n 160.

Fixpoint trim_start (s : string) : string :=
  match s with
  | String a s' => if is_white_space a then trim_start s' else s
  | EmptyString => s
  end.

Definition digit_value (a : ascii) : option Z :=
  let n := Z.of_nat (nat_of_ascii a) in
  if (48 <=? n) && (n <=? 57) then Some (n - 48)
  else if (97 <=? n) && (n <=? 122) then Some (n - 87)
  else if (65 <=? n) && (n <=? 90) then Some (n - 55)
  else None.

(** The value of the longest prefix of radix-[R] digits; [acc] is the value
    read so far, [None] while no digit has been read. *)
Fixpoint digits (R : Z) (s : string) (acc : option Z) : option Z :=
  match s with
  | String a s' =>
      match digit_value a with
      | Some d =>
          if d <? R then digits R s' (Some (R * default 0 acc + d)) else acc
      | None => acc
      end
  | EmptyString => acc
  end.

Definition strip_sign (s : string) : bool * string :=
  match s with
  | String "-" r => (true, r)
  | String "+" r => (false, r)
  | _ => (false, s)
  end.

Definition strip_prefix (s : string) : Z * string :=
  match s with
  | String "0" (String "x" r) => (16, r)
  | String "0" (String "X" r) => (16, r)
  | _ => (10, s)
  end.

(** [parseInt(v)]: leading white space is skipped, then a sign, then a
    [0x] prefix; the digits that follow are read up to the first character
    that is not one.  No digit gives [NaN]; a minus sign in front of zero
    gives [-0]. *)
Definition parseInt (v : value) : float :=
  let '(neg, s1) := strip_sign (trim_start (ToString v)) in
  let '(R, s2) := strip_prefix s1 in
  match digits R s2 None with
  | Some n => if neg then (- of_Z n)%float else of_Z n
  | None => nan
  end.

End JS.

(** ** The data of [appData] *)

Module UserProfile.
Record t : Type := mk {
  avg_amount : float;
  cluster : float;
  cluster_name : string;
  transactions : float;
  preferred_category : string
}.
End UserProfile.

Record ClusterStat : Type := {
  cs_cluster : string;
  cs_users : float;
  cs_avg_amount : float
}.

Record ModelStat : Type := {
  ms_model : string;
  ms_mae : float;
  ms_rmse : float;
  ms_r2 : float
}.

Record AppData : Type := {
  userProfiles : gmap string UserProfile.t;
  categoryAverages : gmap string float;
  clusterData : list ClusterStat;
  modelPerformance : list ModelStat
}.

(** The entries of the two object literals, in source order. *)
Definition userProfiles_entries : list (string * UserProfile.t) :=
  [ ("USER_0001", UserProfile.mk 1017 1 "High-Value Users" 8 "Entertainment");
    ("USER_0002", UserProfile.mk 1004 1 "High-Value Users" 8 "Healthcare");
    ("USER_0003", UserProfile.mk 850 0 "Conservative Spenders" 6 "Groceries");
    ("USER_0655", UserProfile.mk 1360 3 "Active Users" 12 "Food & Dining");
    ("USER_0755", UserProfile.mk 713 2 "Frequent Small Transactions" 15
                                 "Transportation") ].

Definition categoryAverages_entries : list (string * float) :=
  [ ("Food & Dining", 255%float);
    ("Transportation", 118%float);
    ("Shopping", 842%float);
    ("Bills & Utilities", 674%float);
    ("Entertainment", 398%float);
    ("Healthcare", 823%float);
    ("Education", 1987%float);
    ("Groceries", 354%float);
    ("Fuel", 512%float);
    ("Transfer to Friends", 1634%float) ].

Definition appData : AppData := {|
  userProfiles := list_to_map userProfiles_entries;
  categoryAverages := list_to_map categoryAverages_entries;
  clusterData :=
    [ Build_ClusterStat "Conservative Spenders" 162 829;
      Build_ClusterStat "High-Value Users" 146 1692;
      Build_ClusterStat "Frequent Small Transactions" 227 657;
      Build_ClusterStat "Active Users" 267 986;
      Build_ClusterStat "Balanced Spenders" 198 1208 ];
  modelPerformance :=
    [ Build_ModelStat "Random Forest" 475.68 776.90 0.595;
      Build_ModelStat "Gradient Boosting" 478.66 761.18 0.611;
      Build_ModelStat "Linear Regression" 786.49 1142.29 0.124 ]
|}.

(** ** The request and the result *)

Record Params : Type := {
  userId : JS.value;
  category : JS.value;
  location : JS.value;
  paymentMethod : JS.value;
  hour : JS.value
}.

Record Recommendation : Type := {
  amount : JS.numeric;
  confidence : float;
  cluster : JS.value;
  reasoning : string
}.

(** ** [generateRecommendation] *)

(** The time-of-day chain of conditionals, on the parsed hour. *)
Definition hourMultiplier (hour : float) : float :=
  if (6 <=? hour)%float && (hour <=? 10)%float then 0.8%float
  else if (11 <=? hour)%float && (hour <=? 14)%float then 1.2%float
  else if (18 <=? hour)%float && (hour <=? 22)%float then 1.1%float
  else 0.7%float.

(** The confidence of the known-user path. *)
Definition confidenceOf (userProfile : JS.lookup UserProfile.t)
    (params : Params) : float :=
  let confidence := 70%float in
  let confidence :=
    if JS.strict_eq (JS.field UserProfile.preferred_category userProfile)
                    (category params)
    then (confidence + 20)%float else confidence in
  let confidence :=
    if (10 <? JS.ToNumber (JS.field UserProfile.transactions userProfile))%float
    then (confidence + 10)%float else confidence in
  JS.Math_min confidence 95.

(** The function once its two lookups are done.  The known-user branch is
    taken by whatever is truthy: an entry of the table or an inherited
    object. *)
Definition recommend (userProfile : JS.lookup UserProfile.t)
    (categoryAvg : JS.lookup float) (params : Params) : Recommendation :=
  match userProfile with
  | JS.absent =>
      {| amount := JS.or_default categoryAvg 500;
         confidence := 75;
         cluster := JS.str "Unknown";
         reasoning := "Based on category average and system patterns" |}
  | _ =>
      let baseAmount :=
        JS.ToNumber (JS.field UserProfile.avg_amount userProfile) in
      let categoryMultiplier := (JS.ToNumber_lookup categoryAvg / 500)%float in
      let hourMultiplier := hourMultiplier (JS.parseInt (hour params)) in
      let recommendedAmount :=
        JS.Math_round
          (baseAmount * categoryMultiplier * hourMultiplier)%float in
      let cluster_name := JS.field UserProfile.cluster_name userProfile in
      {| amount := JS.number (JS.Math_max recommendedAmount 50);
         confidence := confidenceOf userProfile params;
         cluster := JS.value_of cluster_name;
         reasoning :=
           "Based on " ++ JS.ToString (JS.value_of cluster_name)
           ++ " spending pattern, " ++ JS.ToString (category params)
           ++ " preferences, and transaction time analysis" |}
  end.

Definition generateRecommendation (appData : AppData) (params : Params)
  : Recommendation :=
  let userProfile :=
    JS.get (userProfiles appData) (JS.ToString (userId params)) in
  let categoryAvg :=
    JS.get (categoryAverages appData) (JS.ToString (category params)) in
  recommend userProfile categoryAvg params.

(** *** The function as a script of the page *)

(** The page's globals: the tables and the registry of chart instances
    (a chart is known here by a handle only). *)
Record Globals : Type := {
  g_appData : AppData;
  g_charts : gmap string nat
}.

(** A script runs in the globals and leaves them as it pleases. *)
Definition Script (A : Type) : Type := Globals -> A * Globals.




Definition assign (f : Globals -> Globals) : Script unit :=
  fun g => (tt, f g).



(** ** Notions used in the statements *)

(** A number that is not [NaN], read on its sign-mantissa-exponent form. *)
Definition not_nan (x : float) : Prop := Prim2SF x <> S754_nan.

(** A finite number other than the two zeros. *)
Definition finite_nonzero (x : float) : Prop :=
  exists s m e, Prim2SF x = S754_finite s m e.

(** [n] is the integer nearest to [±m·2^e], for [e < 0]; of two equally
    near it is the larger. *)
Definition nearest_integer (s : bool) (m : positive) (e : Z) (n : Z) : Prop :=
  let sm := if s then Z.neg m else Z.pos m in
  (2 * n - 1) * 2 ^ (- e) <= 2 * sm < (2 * n + 1) * 2 ^ (- e).

Definition signed (s : bool) (m : positive) : Z :=
  if s then Z.neg m else Z.pos m.

(** The number [r] is exactly the integer [n]. *)
Definition integer_valued (r : float) (n : Z) : Prop :=
  match Prim2SF r with
  | S754_zero _ => n = 0
  | S754_finite s m e =>
      if 0 <=? e then n = signed s m * 2 ^ e else signed s m = n * 2 ^ (- e)
  | _ => False
  end.

(** [r] is [x] rounded to an integer.  A number with a non-negative
    exponent is an integer already, as are the zeros; the infinities and
    [NaN] stay; otherwise [r] is the number for the nearest integer, which
    it represents exactly, a zero taking the sign of [x]. *)
Definition rounded (x r : float) : Prop :=
  match Prim2SF x with
  | S754_finite s m e =>
      if 0 <=? e then r = x
      else exists n : Z,
             nearest_integer s m e n /\
             if n =? 0 then r = (if s then (-0)%float else 0%float)
             else r = JS.of_Z n /\ integer_valued r n
  | _ => r = x
  end.

(** The representation of a non-zero integer of at most 53 bits: the
    mantissa shifted up to 53 bits. *)
Definition canonical (s : bool) (m : positive) : spec_float :=
  match Z.pos (digits2_pos m) - 53 with
  | Z.neg k => S754_finite s (Pos.iter xO m k) (Z.neg k)
  | _ => S754_finite s m 0
  end.

(** [a] is the larger of [r] and 50, and [NaN] when [r] is. *)
Definition floored_at_50 (r a : float) : Prop :=
  if is_nan r then a = nan
  else if (r <? 50)%float then a = 50%float
  else a = r.

(** The integer part of a number, [0] for the infinities and [NaN]. *)
Definition integer_value (x : float) : Z :=
  match Prim2SF x with
  | S754_finite s m e =>
      let sm := if s then Z.neg m else Z.pos m in
      if 0 <=? e then sm * 2 ^ e else sm / 2 ^ (- e)
  | _ => 0
  end.

(** The time-of-day multiplier in tenths, as the decimal the source writes. *)
Definition hourTenths (hour : float) : Z :=
  if (6 <=? hour)%float && (hour <=? 10)%float then 8
  else if (11 <=? hour)%float && (hour <=? 14)%float then 12
  else if (18 <=? hour)%float && (hour <=? 22)%float then 11
  else 7.

(** [max(round(avg * (c / 500) * tenths / 10), 50)] over the rationals, the
    rounding being to the nearest integer with ties upwards. *)
Definition exact_amount (avg c tenths : Z) : Z :=
  Z.max ((2 * (avg * c * tenths) + 5000) / 10000) 50.

(** The tables of [appData] with one more category of average 398. *)
Definition appData_with_cinema : AppData := {|
  userProfiles := userProfiles appData;
  categoryAverages := <["Cinema" := 398%float]> (categoryAverages appData);
  clusterData := clusterData appData;
  modelPerformance := modelPerformance appData
|}.

Definition request (u c h : string) : Params := {|
  userId := JS.str u;
  category := JS.str c;
  location := JS.str "Mumbai";
  paymentMethod := JS.str "PhonePe";
  hour := JS.str h
|}.

(** ** The page around the scorer *)

(** *** Showing a recommendation ([displayRecommendationResults]) *)

(** The class list of the confidence container after [className = 'status']
    and the [classList.add] of the branch taken. *)
Definition confidenceStatus (confidence : float) : list string :=
  if (85 <=? confidence)%float then ["status"; "status--success"]
  else if (70 <=? confidence)%float then ["status"; "status--warning"]
  else ["status"; "status--error"].

(** *** Submitting the form ([initializeRecommendationForm]) *)

(** What a submission does: an alert and nothing else, or the recommendation
    computed and shown. *)
Inductive Submitted : Type :=
| alert (message : string)
| shown (recommendation : Recommendation).

(** A string is truthy unless it is empty. *)
Definition truthy (s : string) : bool := negb (String.eqb s "").

Definition formParams (userId category location paymentMethod hour : string)
  : Params :=
  {| userId := JS.str userId; category := JS.str category;
     location := JS.str location; paymentMethod := JS.str paymentMethod;
     hour := JS.str hour |}.

(** The submit handler, on the [value]s of the five controls. *)
Definition submit (appData : AppData)
    (userId category location paymentMethod hour : string) : Submitted :=
  if negb (truthy userId) || negb (truthy category) || negb (truthy location)
     || negb (truthy paymentMethod)
  then alert "Please fill in all fields"
  else shown (generateRecommendation appData
                (formParams userId category location paymentMethod hour)).

(** *** Navigation ([initializeNavigation]) *)

Module DOM.

(** An element, as far as the navigation reads and writes it: its [id]
    (empty when it has none), its [data-section] attribute and its classes.
    A document is the list of its elements in tree order; an element is
    known by its position. *)
Record Element : Type := {
  el_id : string;
  data_section : option string;
  classList : gset string
}.

Definition classList_add (c : string) (e : Element) : Element :=
  {| el_id := el_id e; data_section := data_section e;
     classList := classList e ∪ {[c]} |}.

Definition classList_remove (c : string) (e : Element) : Element :=
  {| el_id := el_id e; data_section := data_section e;
     classList := classList e ∖ {[c]} |}.

(** The first element with the given id; no element has the empty id. *)
Definition getElementById (doc : list Element) (s : string) : option nat :=
  if String.eqb s "" then None
  else fst <$> list_find (λ i, i = s) (el_id <$> doc).

(** The elements with class [c], in tree order. *)
Definition querySelectorAll (c : string) (doc : list Element) : list nat :=
  fst <$> filter (λ p, c ∈ classList p.2) (imap pair doc).

(** [nodes.forEach(node => ...)] for a callback that changes its node. *)
Definition forEach (nodes : list nat) (f : Element → Element)
    (doc : list Element) : list Element :=
  foldl (λ d i, alter f i d) doc nodes.

End DOM.

(** The two node lists the handlers close over. *)
Definition initializeNavigation (doc : list DOM.Element)
  : list nat * list nat :=
  (DOM.querySelectorAll "nav-btn" doc, DOM.querySelectorAll "section" doc).

(** The click handler of the button at position [this].  A missing
    [data-section] reads as [null], which [getElementById] takes as the id
    "null". *)
Definition navClick (navButtons sections : list nat) (this : nat)
    (doc : list DOM.Element) : list DOM.Element :=
  match doc !! this with
  | None => doc
  | Some button =>
      let targetSection := default "null" (DOM.data_section button) in
      let doc := alter (DOM.classList_remove "loading") this doc in
      let doc :=
        DOM.forEach navButtons
          (λ btn, DOM.classList_remove "loading"
                    (DOM.classList_remove "active" btn))
          doc in
      let doc := alter (DOM.classList_add "active") this doc in
      let doc := DOM.forEach sections (DOM.classList_remove "active") doc in
      match DOM.getElementById doc targetSection with
      | Some targetElement =>
          alter (DOM.classList_add "active") targetElement doc
      | None => doc
      end
  end.

Definition hasClass (c : string) (doc : list DOM.Element) (j : nat) : bool :=
  match doc !! j with
  | Some e => bool_decide (c ∈ DOM.classList e)
  | None => false
  end.

(** The element a button's [data-section] leads to. *)
Definition targetOf (doc : list DOM.Element) (this : nat) : option nat :=
  match doc !! this with
  | Some button =>
      DOM.getElementById doc (default "null" (DOM.data_section button))
  | None => None
  end.

(** The classes of element [j] after a click on [this], step by step. *)
Definition classes_after (navButtons sections : list nat) (this : nat)
    (target : option nat) (j : nat) (c : gset string) : gset string :=
  let c := if bool_decide (j = this) then c ∖ {["loading"]} else c in
  let c := if bool_decide (j ∈ navButtons)
           then c ∖ {["active"]} ∖ {["loading"]} else c in
  let c := if bool_decide (j = this) then c ∪ {["active"]} else c in
  let c := if bool_decide (j ∈ sections) then c ∖ {["active"]} else c in
  if bool_decide (target = Some j) then c ∪ {["active"]} else c.

(** A page of three buttons and two sections; the third button names a
    section that does not exist. *)
Definition sample_page : list DOM.Element :=
  [ DOM.Build_Element "" (Some "recommendation") {[ "nav-btn"; "active" ]};
    DOM.Build_Element "" (Some "analytics") {[ "nav-btn" ]};
    DOM.Build_Element "" (Some "settings") {[ "nav-btn"; "loading" ]};
    DOM.Build_Element "recommendation" None {[ "section"; "active" ]};
    DOM.Build_Element "analytics" None {[ "section" ]} ].

(** *** The profile panel ([updateUserProfile], [updateSpendingChart]) *)

(** The panel's [innerHTML] ([None] when the page has no such element) and
    the data of the spending chart's only dataset ([None] when the chart
    was not created). *)
Record ProfilePage : Type := {
  profileDisplay : option string;
  spendingData : option (list float)
}.

(** [random i] is the [i]-th draw of [Math.random] in the call. *)
Definition updateSpendingChart (appData : AppData) (random : nat -> float)
    (userId : string) (spending : option (list float))
  : option (list float) :=
  let profile := JS.get (userProfiles appData) userId in
  match profile, spending with
  | JS.absent, _ => spending
  | _, None => spending
  | _, Some _ =>
      let baseAmount :=
        JS.ToNumber (JS.field UserProfile.avg_amount profile) in
      let variation := (baseAmount * 0.3)%float in
      Some (map (fun i =>
                   let randomVariation :=
                     ((random i - 0.5) * variation)%float in
                   JS.Math_round (baseAmount + randomVariation)%float)
                (seq 0 6))
  end.

(** How a call ends: normally, or by the [TypeError] of reading a property
    of [undefined]; either way with the page it leaves. *)
Inductive Completion (A : Type) : Type :=
| normal (a : A)
| TypeError (a : A).

Arguments normal {A} a.
Arguments TypeError {A} a.

Definition quote : string := String (ascii_of_nat 34) EmptyString.

Section ProfilePanel.

(** The two conversions of a number to text; the first depends on the
    locale of the browser. *)
Variable toLocaleString : float -> string.
Variable Number_toString : float -> string.

Definition profileHtml (profile : UserProfile.t) : string :=
  "
    <div class=" ++ quote ++ "profile-stat" ++ quote ++ ">
      <span class=" ++ quote ++ "profile-label" ++ quote ++ ">Average Amount:</span>
      <span class=" ++ quote ++ "profile-value" ++ quote ++ ">₹"
  ++ toLocaleString (UserProfile.avg_amount profile) ++ "</span>
    </div>
    <div class=" ++ quote ++ "profile-stat" ++ quote ++ ">
      <span class=" ++ quote ++ "profile-label" ++ quote ++ ">Total Transactions:</span>
      <span class=" ++ quote ++ "profile-value" ++ quote ++ ">"
  ++ Number_toString (UserProfile.transactions profile) ++ "</span>
    </div>
    <div class=" ++ quote ++ "profile-stat" ++ quote ++ ">
      <span class=" ++ quote ++ "profile-label" ++ quote ++ ">Preferred Category:</span>
      <span class=" ++ quote ++ "profile-value" ++ quote ++ ">"
  ++ UserProfile.preferred_category profile ++ "</span>
    </div>
    <div class=" ++ quote ++ "profile-stat" ++ quote ++ ">
      <span class=" ++ quote ++ "profile-label" ++ quote ++ ">User Cluster:</span>
      <span class=" ++ quote ++ "profile-value status status--info" ++ quote ++ ">"
  ++ UserProfile.cluster_name profile ++ "</span>
    </div>
  ".

(** For an inherited object [profile.avg_amount] is [undefined], and the
    template literal throws at [.toLocaleString()] before anything is
    written. *)
Definition updateUserProfile (appData : AppData) (random : nat -> float)
    (userId : string) (page : ProfilePage) : Completion ProfilePage :=
  let profile := JS.get (userProfiles appData) userId in
  match profileDisplay page with
  | None => normal page
  | Some _ =>
      match profile with
      | JS.own entry =>
          if truthy userId then
            normal
              {| profileDisplay := Some (profileHtml entry);
                 spendingData :=
                   updateSpendingChart appData random userId
                     (spendingData page) |}
          else
            normal
              {| profileDisplay :=
                   Some "<p>Select a user to view profile</p>";
                 spendingData := spendingData page |}
      | JS.inherited _ =>
          if truthy userId then TypeError page
          else
            normal
              {| profileDisplay :=
                   Some "<p>Select a user to view profile</p>";
                 spendingData := spendingData page |}
      | JS.absent =>
          normal
            {| profileDisplay := Some "<p>Select a user to view profile</p>";
               spendingData := spendingData page |}
      end
  end.

End ProfilePanel.

(** The tables of [appData] with a category whose average is zero. *)
Definition appData_with_free : AppData := {|
  userProfiles := userProfiles appData;
  categoryAverages := <["Free" := 0%float]> (categoryAverages appData);
  clusterData := clusterData appData;
  modelPerformance := modelPerformance appData
|}.

(** ** Facts about the number operations *)

Section Comparisons.

(** The order of [SFcompare] is the lexicographic one on sign, exponent and
    mantissa, so strict and large comparisons chain. *)
Lemma SFcompare_chain (x y z : spec_float) :
  SFltb x y = true -> SFleb y z = true -> SFleb z x = false.
Proof.
  unfold SFltb, SFleb.
  destruct x as [sx|sx| |sx mx ex], y as [sy|sy| |sy my ey],
           z as [sz|sz| |sz mz ez]; simpl;
    try discriminate; try reflexivity;
    repeat match goal with s : bool |- _ => destruct s end; simpl;
    try discriminate; try reflexivity.
  all: rewrite ?Pos.compare_cont_spec; simpl.
  all: repeat match goal with
    | |- context [ (?a ?= ?b)%Z ] => destruct (Z.compare_spec a b); simpl
    | |- context [ (?a ?= ?b)%positive ] =>
        destruct (Pos.compare_spec a b); simpl
    end; try discriminate; try reflexivity; intros; try lia.
Qed.

Lemma ltb_leb_chain (a b c : float) :
  (a <? b)%float = true -> (b <=? c)%float = true -> (c <=? a)%float = false.
Proof. rewrite ltb_spec, !leb_spec. apply SFcompare_chain. Qed.

(** [c <= a < b] excludes [b <= c]. *)
Lemma leb_ltb_chain (a b c : float) :
  (a <? b)%float = true -> (c <=? a)%float = true -> (b <=? c)%float = false.
Proof.
  intros Hab Hca. destruct (b <=? c)%float eqn:Hbc; [|reflexivity].
  rewrite (ltb_leb_chain a b c Hab Hbc) in Hca. discriminate.
Qed.

Lemma mul_nan_r (x : float) : (x * nan)%float = nan.
Proof.
  apply Prim2SF_inj. rewrite mul_spec.
  change (Prim2SF nan) with S754_nan.
  destruct (Prim2SF x) as [ | | | ]; reflexivity.
Qed.

Lemma mul_nan_l (y : float) : (nan * y)%float = nan.
Proof.
  apply Prim2SF_inj. rewrite mul_spec.
  change (Prim2SF nan) with S754_nan. reflexivity.
Qed.

End Comparisons.

(** Rounding a non-negative mantissa never produces [NaN]. *)
Section NotNaN.
Variables prec emax : Z.

Lemma shr_1_nonneg (mrs : shr_record) :
  0 <= shr_m mrs -> 0 <= shr_m (shr_1 mrs).
Proof. destruct mrs as [[|[p|p|]|p] r s]; simpl; lia. Qed.

Lemma iter_shr_1_nonneg (p : positive) : forall mrs : shr_record,
  0 <= shr_m mrs -> 0 <= shr_m (SpecFloat.iter_pos shr_1 p mrs).
Proof.
  induction p as [p IH|p IH|]; intros mrs H; simpl.
  - apply IH, IH, shr_1_nonneg, H.
  - apply IH, IH, H.
  - apply shr_1_nonneg, H.
Qed.

Lemma shr_fexp_nonneg (m e : Z) (l : SpecFloat.location) :
  0 <= m -> 0 <= shr_m (fst (shr_fexp prec emax m e l)).
Proof.
  intros H. unfold shr_fexp, shr.
  assert (H0 : 0 <= shr_m (shr_record_of_loc m l))
    by (destruct l as [|[]]; exact H).
  destruct (fexp prec emax (Zdigits2 m + e) - e); simpl;
    auto using iter_shr_1_nonneg.
Qed.

Lemma round_nearest_even_nonneg (m : Z) (l : SpecFloat.location) :
  0 <= m -> 0 <= round_nearest_even m l.
Proof. intros H. destruct l as [|[]]; simpl; try destruct (Z.even m); lia. Qed.

Lemma binary_round_aux_not_nan (sx : bool) (mx ex : Z)
    (lx : SpecFloat.location) :
  0 <= mx -> binary_round_aux prec emax sx mx ex lx <> S754_nan.
Proof.
  intros H. unfold binary_round_aux.
  pose proof (shr_fexp_nonneg mx ex lx H) as H1.
  destruct (shr_fexp prec emax mx ex lx) as [mrs' e']. simpl in H1.
  pose proof (shr_fexp_nonneg _ e' loc_Exact
    (round_nearest_even_nonneg _ (loc_of_shr_record mrs') H1)) as H2.
  destruct (shr_fexp prec emax _ e' loc_Exact) as [mrs'' e'']. simpl in H2.
  destruct (shr_m mrs'') as [|m|m]; [discriminate| |lia].
  destruct (e'' <=? emax - prec); discriminate.
Qed.

Lemma binary_round_not_nan (sx : bool) (mx : positive) (ex : Z) :
  binary_round prec emax sx mx ex <> S754_nan.
Proof.
  unfold binary_round. destruct (shl_align _ _ _) as [mz ez].
  apply binary_round_aux_not_nan. lia.
Qed.

Lemma binary_normalize_not_nan (m e : Z) (sz : bool) :
  binary_normalize prec emax m e sz <> S754_nan.
Proof.
  destruct m; simpl; [discriminate| |]; apply binary_round_not_nan.
Qed.

Lemma SFmul_not_nan (x y : spec_float) :
  x <> S754_nan -> y <> S754_nan ->
  (exists s m e, x = S754_finite s m e) \/
  (exists s m e, y = S754_finite s m e) ->
  SFmul prec emax x y <> S754_nan.
Proof.
  intros Hx Hy [(s & m & e & ->) | (s & m & e & ->)].
  - destruct y; simpl; try discriminate; [congruence|].
    apply binary_round_aux_not_nan. lia.
  - destruct x; simpl; try discriminate; [congruence|].
    apply binary_round_aux_not_nan. lia.
Qed.

Lemma SFdiv_not_nan (x : spec_float) (s : bool) (m : positive) (e : Z) :
  x <> S754_nan -> SFdiv prec emax x (S754_finite s m e) <> S754_nan.
Proof.
  intros Hx. destruct x as [sx|sx| |sx mx ex]; simpl; try discriminate;
    [congruence|].
  unfold SFdiv_core_binary.
  set (m' := match _ with Z0 => _ | Z.pos _ => _ | Z.neg _ => _ end).
  assert (Hm' : 0 <= m').
  { subst m'. destruct (_ - _); try lia. apply Z.shiftl_nonneg. lia. }
  pose proof (Z_div_mod m' (Z.pos m) ltac:(lia)) as Hdm.
  destruct (Z.div_eucl m' (Z.pos m)) as [q r].
  apply binary_round_aux_not_nan. nia.
Qed.

Lemma SFldexp_not_nan (x : spec_float) (e : Z) :
  x <> S754_nan -> SFldexp prec emax x e <> S754_nan.
Proof.
  destruct x; simpl; auto. intros _. apply binary_round_not_nan.
Qed.

End NotNaN.

Lemma SFeqb_refl (y : spec_float) : y <> S754_nan -> SFeqb y y = true.
Proof.
  unfold SFeqb. destruct y as [s|s| |s m e]; simpl; try reflexivity.
  - destruct s; reflexivity.
  - congruence.
  - intros _. rewrite Z.compare_refl, Pos.compare_cont_refl.
    destruct s; reflexivity.
Qed.

Lemma is_nan_false (x : float) : is_nan x = false <-> not_nan x.
Proof.
  unfold is_nan, not_nan. rewrite FloatAxioms.eqb_spec. split.
  - intros H E. rewrite E in H. discriminate.
  - intros H. rewrite (SFeqb_refl _ H). reflexivity.
Qed.

Lemma is_finite_true (x : float) :
  is_finite x = true ->
  (exists s, Prim2SF x = S754_zero s) \/ finite_nonzero x.
Proof.
  unfold finite_nonzero, is_finite, is_nan, is_infinity.
  rewrite !FloatAxioms.eqb_spec, abs_spec.
  change (Prim2SF infinity) with (S754_infinity false).
  destruct (Prim2SF x) as [s|[]| |s m e]; simpl; try discriminate; eauto.
Qed.

Lemma nonzero_finite (x : float) :
  is_finite x = true -> (x =? 0)%float = false -> finite_nonzero x.
Proof.
  intros Hf Hz. destruct (is_finite_true x Hf) as [[s E]|H]; [|exact H].
  rewrite FloatAxioms.eqb_spec, E in Hz. discriminate.
Qed.

Lemma mul_not_nan_l (x y : float) :
  finite_nonzero x -> not_nan y -> not_nan (x * y)%float.
Proof.
  intros Hx Hy. unfold not_nan. rewrite mul_spec.
  apply SFmul_not_nan; [|exact Hy|left; exact Hx].
  destruct Hx as (s & m & e & ->). discriminate.
Qed.

Lemma mul_not_nan_r (x y : float) :
  not_nan x -> finite_nonzero y -> not_nan (x * y)%float.
Proof.
  intros Hx Hy. unfold not_nan. rewrite mul_spec.
  apply SFmul_not_nan; [exact Hx| |right; exact Hy].
  destruct Hy as (s & m & e & ->). discriminate.
Qed.

Lemma div_500_not_nan (x : float) : not_nan x -> not_nan (x / 500)%float.
Proof.
  intros Hx. unfold not_nan. rewrite div_spec.
  change (Prim2SF 500) with (S754_finite false 8796093022208000 (-44)).
  apply SFdiv_not_nan, Hx.
Qed.

Lemma of_Z_not_nan (n : Z) : not_nan (JS.of_Z n).
Proof.
  unfold not_nan, JS.of_Z.
  pose proof (binary_normalize_not_nan prec emax n 0 false) as H.
  destruct (binary_normalize prec emax n 0 false) as [[]|[]| |s m e]; simpl;
    try discriminate; [congruence|].
  assert (Hl : not_nan (Z.ldexp (of_uint63 (Uint63.of_Z (Z.pos m))) e)).
  { unfold not_nan. rewrite Z_ldexp_spec, of_uint63_spec.
    apply SFldexp_not_nan, binary_normalize_not_nan. }
  destruct s; [|exact Hl].
  unfold not_nan in Hl. rewrite opp_spec. destruct (Prim2SF _); simpl; congruence.
Qed.

Lemma Math_round_not_nan (x : float) :
  not_nan x -> not_nan (JS.Math_round x).
Proof.
  intros Hx. unfold JS.Math_round.
  destruct (Prim2SF x) as [s|s| |s m e] eqn:E; try exact Hx.
  destruct (0 <=? e); [exact Hx|]. cbv zeta.
  destruct (_ =? 0); [destruct s; discriminate|]. apply of_Z_not_nan.
Qed.

Lemma SFleb_total (x y : spec_float) :
  x <> S754_nan -> y <> S754_nan -> SFltb x y = false -> SFleb y x = true.
Proof.
  unfold SFltb, SFleb.
  destruct x as [sx|sx| |sx mx ex], y as [sy|sy| |sy my ey]; simpl;
    try congruence;
    repeat match goal with s : bool |- _ => destruct s end; simpl;
    try congruence.
  all: intros _ _; rewrite !Pos.compare_cont_spec.
  all: rewrite (Z.compare_antisym ex ey), (Pos.compare_antisym mx my).
  all: destruct (ex ?= ey); simpl; try congruence.
  all: destruct (mx ?= my)%positive; simpl; congruence.
Qed.

Lemma leb_total (x y : float) :
  not_nan x -> not_nan y ->
  (x <? y)%float = false -> (y <=? x)%float = true.
Proof. rewrite ltb_spec, leb_spec. apply SFleb_total. Qed.

Lemma Math_max_50 (r : float) :
  not_nan r -> (50 <=? JS.Math_max r 50)%float = true.
Proof.
  intros Hr. unfold JS.Math_max, JS.isNaN.
  rewrite (proj2 (is_nan_false r) Hr).
  change (is_nan 50) with false. cbv [orb].
  destruct (r <? 50)%float eqn:Hlt; [reflexivity|].
  assert (Hle : (50 <=? r)%float = true).
  { apply leb_total; [exact Hr | | exact Hlt]. vm_compute. discriminate. }
  destruct (50 <? r)%float; [exact Hle|].
  destruct (JS.is_neg_zero r); [reflexivity | exact Hle].
Qed.

(** ** The time-of-day multiplier *)

Lemma hourMultiplier_cases (h : float) :
  hourMultiplier h = 0.8%float \/ hourMultiplier h = 1.2%float \/
  hourMultiplier h = 1.1%float \/ hourMultiplier h = 0.7%float.
Proof.
  unfold hourMultiplier.
  destruct ((6 <=? h)%float && (h <=? 10)%float); [tauto|].
  destruct ((11 <=? h)%float && (h <=? 14)%float); [tauto|].
  destruct ((18 <=? h)%float && (h <=? 22)%float); tauto.
Qed.

Lemma hourMultiplier_finite (h : float) : finite_nonzero (hourMultiplier h).
Proof.
  unfold finite_nonzero.
  destruct (hourMultiplier_cases h) as [-> | [-> | [-> | ->]]];
    vm_compute; eauto.
Qed.

(** C4. In the known-user path the multiplier applied is
    [hourMultiplier (parseInt params.hour)]; it is 0.8 on [6,10], 1.2 on
    [11,14], 1.1 on [18,22], the bounds included, and 0.7 for every other
    hour: one in no band, one below 0 or above 23, and [NaN]. *)
Theorem hourMultiplier_bands (h : float) :
  ((6 <=? h)%float = true -> (h <=? 10)%float = true ->
   hourMultiplier h = 0.8%float) /\
  ((11 <=? h)%float = true -> (h <=? 14)%float = true ->
   hourMultiplier h = 1.2%float) /\
  ((18 <=? h)%float = true -> (h <=? 22)%float = true ->
   hourMultiplier h = 1.1%float) /\
  (((6 <=? h)%float && (h <=? 10)%float = false) ->
   ((11 <=? h)%float && (h <=? 14)%float = false) ->
   ((18 <=? h)%float && (h <=? 22)%float = false) ->
   hourMultiplier h = 0.7%float) /\
  ((h <? 0)%float = true \/ (23 <? h)%float = true ->
   hourMultiplier h = 0.7%float) /\
  (h = nan -> hourMultiplier h = 0.7%float).
Proof.
  unfold hourMultiplier. repeat split.
  - intros -> ->. reflexivity.
  - intros H11 H14.
    rewrite (ltb_leb_chain 10 11 h eq_refl H11), andb_false_r.
    rewrite H11, H14. reflexivity.
  - intros H18 H22.
    rewrite (ltb_leb_chain 10 18 h eq_refl H18), andb_false_r.
    rewrite (ltb_leb_chain 14 18 h eq_refl H18), andb_false_r.
    rewrite H18, H22. reflexivity.
  - intros -> -> ->. reflexivity.
  - intros [Hlo | Hhi].
    + rewrite (ltb_leb_chain h 0 6 Hlo eq_refl).
      rewrite (ltb_leb_chain h 0 11 Hlo eq_refl).
      rewrite (ltb_leb_chain h 0 18 Hlo eq_refl). reflexivity.
    + rewrite (leb_ltb_chain 23 h 10 Hhi eq_refl), andb_false_r.
      rewrite (leb_ltb_chain 23 h 14 Hhi eq_refl), andb_false_r.
      rewrite (leb_ltb_chain 23 h 22 Hhi eq_refl), andb_false_r.
      reflexivity.
  - intros ->. reflexivity.
Qed.

Lemma hourMultiplier_bands_witness :
  hourMultiplier 6 = 0.8%float /\ hourMultiplier 14 = 1.2%float /\
  hourMultiplier 22 = 1.1%float /\ hourMultiplier 16 = 0.7%float /\
  hourMultiplier 24 = 0.7%float /\ hourMultiplier nan = 0.7%float.
Proof.
  split; [exact (proj1 (hourMultiplier_bands 6) eq_refl eq_refl)|].
  split; [exact (proj1 (proj2 (hourMultiplier_bands 14)) eq_refl eq_refl)|].
  split;
    [exact (proj1 (proj2 (proj2 (hourMultiplier_bands 22))) eq_refl eq_refl)|].
  split;
    [exact (proj1 (proj2 (proj2 (proj2 (hourMultiplier_bands 16))))
              eq_refl eq_refl eq_refl)|].
  split;
    [exact (proj1 (proj2 (proj2 (proj2 (proj2 (hourMultiplier_bands 24)))))
              (or_intror eq_refl))|].
  exact (proj2 (proj2 (proj2 (proj2 (proj2 (hourMultiplier_bands nan)))))
           eq_refl).
Defined.

(** The bands as the form's slider sends them (a string of digits). *)
Example hourMultiplier_slider :
  map (fun h => hourMultiplier (JS.parseInt (JS.str h)))
      ["8"; "13"; "20"; "2"; "16"; "23"; "0"]
  = [0.8; 1.2; 1.1; 0.7; 0.7; 0.7; 0.7]%float.
Proof. reflexivity. Qed.

(** The multiplier at each hour of the day. *)
Example hourMultiplier_day :
  map (fun h => hourMultiplier (JS.of_Z h)) (seqZ 0 24)
  = [0.7; 0.7; 0.7; 0.7; 0.7; 0.7; 0.8; 0.8; 0.8; 0.8; 0.8; 1.2;
     1.2; 1.2; 1.2; 0.7; 0.7; 0.7; 1.1; 1.1; 1.1; 1.1; 1.1; 0.7]%float.
Proof. vm_compute. reflexivity. Qed.

(** ** What [Math.round] and [Math.max] compute *)

Lemma round_half_up_nearest (s : bool) (m : positive) (e : Z) :
  e < 0 -> nearest_integer s m e (JS.round_half_up s m e).
Proof.
  intros He. unfold nearest_integer, JS.round_half_up.
  set (sm := if s then Z.neg m else Z.pos m).
  replace (1 - e) with (Z.succ (- e)) by lia.
  rewrite Z.pow_succ_r by lia.
  assert (Hp : 0 < 2 ^ (- e)) by (apply Z.pow_pos_nonneg; lia).
  set (k := 2 ^ (- e)) in *.
  pose proof (Z.div_mod (2 * sm + k) (2 * k) ltac:(lia)) as Hd.
  pose proof (Z.mod_pos_bound (2 * sm + k) (2 * k) ltac:(lia)) as Hm.
  set (n := (2 * sm + k) / (2 * k)) in *.
  nia.
Qed.

Lemma digits2_iter_xO (m k : positive) :
  digits2_pos (Pos.iter xO m k) = (digits2_pos m + k)%positive.
Proof.
  induction k as [|k IH] using Pos.peano_ind.
  - simpl. lia.
  - rewrite Pos.iter_succ. simpl. rewrite IH. lia.
Qed.

Lemma iter_xO_value (m k : positive) :
  Z.pos (Pos.iter xO m k) = Z.pos m * 2 ^ Z.pos k.
Proof.
  induction k as [|k IH] using Pos.peano_ind.
  - simpl. lia.
  - rewrite Pos.iter_succ, Pos2Z.inj_succ, Z.pow_succ_r by lia.
    rewrite Pos2Z.inj_xO, IH. lia.
Qed.

Lemma binary_round_small (s : bool) (m : positive) :
  Z.pos (digits2_pos m) <= 53 ->
  binary_round prec emax s m 0 = canonical s m.
Proof.
  intros Hd. unfold binary_round, canonical, shl_align, fexp, SpecFloat.emin.
  change (3 - emax - prec) with (-1074). change prec with 53.
  rewrite Z.add_0_r.
  replace (Z.max (Z.pos (digits2_pos m) - 53) (-1074))
    with (Z.pos (digits2_pos m) - 53) by lia.
  rewrite Z.sub_0_r.
  destruct (Z.pos (digits2_pos m) - 53) as [|k|k] eqn:Hk; [|lia|].
  - unfold binary_round_aux, shr_fexp, fexp, SpecFloat.emin, shr.
    cbn [Zdigits2 shr_record_of_loc].
    change (3 - emax - 53) with (-1074).
    replace (Z.max (Z.pos (digits2_pos m) + 0 - 53) (-1074) - 0) with 0 by lia.
    cbn [shr_m loc_of_shr_record round_nearest_even Zdigits2].
    replace (Z.max (Z.pos (digits2_pos m) + 0 - 53) (-1074) - 0) with 0 by lia.
    cbn [shr_m]. reflexivity.
  - unfold binary_round_aux, shr_fexp, fexp, SpecFloat.emin, shr.
    cbn [Zdigits2 shr_record_of_loc].
    change (3 - emax - 53) with (-1074).
    rewrite digits2_iter_xO.
    replace (Z.max (Z.pos (digits2_pos m + k) + Z.neg k - 53) (-1074) - Z.neg k)
      with 0 by lia.
    cbn [shr_m loc_of_shr_record round_nearest_even Zdigits2].
    rewrite digits2_iter_xO.
    replace (Z.max (Z.pos (digits2_pos m + k) + Z.neg k - 53) (-1074) - Z.neg k)
      with 0 by lia.
    cbn [shr_m]. reflexivity.
Qed.

Lemma digits2_size (p : positive) : digits2_pos p = Pos.size p.
Proof. induction p; simpl; congruence. Qed.

Lemma digits2_bound (p : positive) :
  Z.pos p < 2 ^ 53 -> Z.pos (digits2_pos p) <= 53.
Proof.
  intros Hp. rewrite digits2_size.
  destruct (Z_le_gt_dec (Z.pos (Pos.size p)) 53) as [H|H]; [exact H|].
  exfalso. pose proof (Pos.size_le p) as Hs.
  assert (H2 : 2 ^ 54 <= 2 ^ Z.pos (Pos.size p))
    by (apply Z.pow_le_mono_r; lia).
  assert (H3 : Z.pos (2 ^ Pos.size p) <= Z.pos p~0) by exact Hs.
  rewrite Pos2Z.inj_pow in H3. lia.
Qed.

Lemma digits2_upper (p : positive) : Z.pos p < 2 ^ Z.pos (digits2_pos p).
Proof.
  rewrite digits2_size. pose proof (Pos.size_gt p) as H.
  assert (H' : Z.pos p < Z.pos (2 ^ Pos.size p)) by exact H.
  rewrite Pos2Z.inj_pow in H'. exact H'.
Qed.

Lemma canonical_valid (s : bool) (m : positive) :
  Z.pos (digits2_pos m) <= 53 -> valid_binary (canonical s m) = true.
Proof.
  intros Hd. unfold canonical.
  destruct (Z.pos (digits2_pos m) - 53) as [|k|k] eqn:Hk; [|lia|];
    unfold SpecFloat.valid_binary, bounded, canonical_mantissa, fexp, SpecFloat.emin;
    change (3 - emax - prec) with (-1074); change prec with 53;
    change emax with 1024; rewrite ?digits2_iter_xO;
    apply andb_true_intro; split; try (apply Z.eqb_eq; lia);
    apply Z.leb_le; lia.
Qed.

Lemma of_Z_canonical (n : Z) (s : bool) (p : positive) :
  n = signed s p -> Z.pos p < 2 ^ 53 ->
  Prim2SF (JS.of_Z n) = canonical s p.
Proof.
  intros -> Hp. unfold JS.of_Z.
  assert (E : binary_normalize prec emax (signed s p) 0 false = canonical s p).
  { destruct s; simpl; apply binary_round_small, digits2_bound, Hp. }
  rewrite E. apply Prim2SF_SF2Prim, canonical_valid, digits2_bound, Hp.
Qed.

Lemma of_Z_integer_valued (n : Z) :
  n <> 0 -> Z.abs n < 2 ^ 53 -> integer_valued (JS.of_Z n) n.
Proof.
  intros Hn Hb. unfold integer_valued.
  destruct n as [|p|p]; [congruence| |].
  - rewrite (of_Z_canonical (Z.pos p) false p eq_refl Hb). unfold canonical.
    destruct (Z.pos (digits2_pos p) - 53) as [|k|k]; simpl.
    + lia.
    + lia.
    + rewrite iter_xO_value. reflexivity.
  - rewrite (of_Z_canonical (Z.neg p) true p eq_refl Hb). unfold canonical.
    destruct (Z.pos (digits2_pos p) - 53) as [|k|k]; simpl.
    + lia.
    + lia.
    + change (Z.neg (Pos.iter xO p k)) with (- Z.pos (Pos.iter xO p k)).
      rewrite iter_xO_value. change (- Z.neg k) with (Z.pos k).
      generalize (2 ^ Z.pos k). intros q. lia.
Qed.

Lemma valid_digits (x : float) (s : bool) (m : positive) (e : Z) :
  Prim2SF x = S754_finite s m e -> Z.pos (digits2_pos m) <= 53.
Proof.
  intros E. pose proof (Prim2SF_valid x) as Hv. rewrite E in Hv.
  unfold SpecFloat.valid_binary, bounded, canonical_mantissa, fexp in Hv.
  apply andb_prop in Hv as [Hc _]. apply Z.eqb_eq in Hc.
  change prec with 53 in Hc. lia.
Qed.

Lemma nearest_bound (s : bool) (m : positive) (e n : Z) :
  e < 0 -> Z.pos m < 2 ^ 53 -> nearest_integer s m e n -> Z.abs n < 2 ^ 53.
Proof.
  unfold nearest_integer. intros He Hm Hn.
  assert (Hk : 2 <= 2 ^ (- e)).
  { change 2 with (2 ^ 1) at 1. apply Z.pow_le_mono_r; lia. }
  set (k := 2 ^ (- e)) in *.
  assert (H53 : 2 ^ 53 = 9007199254740992) by reflexivity.
  rewrite H53 in *. destruct s; nia.
Qed.

(** [Math.round] meets its description: the result is the nearest integer,
    ties upwards, held exactly. *)
Lemma Math_round_rounded (x : float) : rounded x (JS.Math_round x).
Proof.
  unfold rounded, JS.Math_round.
  destruct (Prim2SF x) as [s|s| |s m e] eqn:E; try reflexivity.
  destruct (0 <=? e) eqn:He; [reflexivity|].
  apply Z.leb_gt in He.
  pose proof (round_half_up_nearest s m e He) as Hn.
  exists (JS.round_half_up s m e). split; [exact Hn|].
  cbv zeta. destruct (JS.round_half_up s m e =? 0) eqn:H0; [reflexivity|].
  split; [reflexivity|].
  apply Z.eqb_neq in H0. apply of_Z_integer_valued; [exact H0|].
  apply (nearest_bound s m e _ He); [|exact Hn].
  pose proof (valid_digits x s m e E) as Hd.
  pose proof (digits2_upper m) as Hu.
  assert (H2 : 2 ^ Z.pos (digits2_pos m) <= 2 ^ 53)
    by (apply Z.pow_le_mono_r; lia).
  lia.
Qed.

Lemma SFcompare_eq_finite (x : spec_float) (s : bool) (m : positive) (e : Z) :
  SFltb x (S754_finite s m e) = false ->
  SFltb (S754_finite s m e) x = false ->
  x <> S754_nan -> x = S754_finite s m e.
Proof.
  unfold SFltb.
  destruct x as [sx|sx| |sx mx ex]; simpl; try congruence;
    repeat match goal with b : bool |- _ => destruct b end; simpl;
    try congruence.
  all: rewrite !Pos.compare_cont_spec.
  all: rewrite (Z.compare_antisym ex e), (Pos.compare_antisym mx m).
  all: destruct (Z.compare_spec ex e); simpl; try congruence.
  all: destruct (Pos.compare_spec mx m); simpl; try congruence.
Qed.

Lemma Math_max_floored (r : float) : floored_at_50 r (JS.Math_max r 50).
Proof.
  unfold floored_at_50, JS.Math_max, JS.isNaN.
  destruct (is_nan r) eqn:Hn; [reflexivity|].
  change (is_nan 50) with false. cbv [orb].
  destruct (r <? 50)%float eqn:Hlt; [reflexivity|].
  destruct (50 <? r)%float eqn:Hgt; [reflexivity|].
  assert (E : Prim2SF r = S754_finite false 7036874417766400 (-47)).
  { apply SFcompare_eq_finite.
    - rewrite ltb_spec in Hlt. exact Hlt.
    - rewrite ltb_spec in Hgt. exact Hgt.
    - apply is_nan_false, Hn. }
  unfold JS.is_neg_zero. rewrite E. reflexivity.
Qed.

(** ** Indexing the tables *)

Lemma get_own {A : Type} (table : gmap string A) (key : string) (a : A) :
  table !! key = Some a -> JS.get table key = JS.own a.
Proof. unfold JS.get. intros ->. reflexivity. Qed.

Lemma get_absent {A : Type} (table : gmap string A) (key : string) :
  table !! key = None -> key ∉ JS.Object_prototype ->
  JS.get table key = JS.absent.
Proof.
  unfold JS.get. intros -> H. rewrite bool_decide_eq_false_2 by exact H.
  reflexivity.
Qed.

Lemma get_inherited {A : Type} (table : gmap string A) (key : string) :
  table !! key = None -> key ∈ JS.Object_prototype ->
  JS.get table key = JS.inherited key.
Proof.
  unfold JS.get. intros -> H. rewrite bool_decide_eq_true_2 by exact H.
  reflexivity.
Qed.

(** A name with no entry in a table of numbers reads as a value whose
    number is [NaN], inherited or not. *)
Lemma ToNumber_lookup_None (table : gmap string float) (key : string) :
  table !! key = None -> JS.ToNumber_lookup (JS.get table key) = nan.
Proof.
  unfold JS.get. intros ->. destruct (bool_decide _); reflexivity.
Qed.

Lemma strict_eq_string_spec (a : string) (v : JS.value) :
  JS.strict_eq_string a v = true <-> v = JS.str a.
Proof.
  destruct v as [|s]; simpl; [split; discriminate|].
  rewrite String.eqb_eq. split; [intros ->; reflexivity|].
  intros H. injection H as ->. reflexivity.
Qed.

Lemma strict_eq_string_neq (a : string) (v : JS.value) :
  v <> JS.str a -> JS.strict_eq_string a v = false.
Proof.
  intros Hne. destruct (JS.strict_eq_string a v) eqn:E; [|reflexivity].
  apply strict_eq_string_spec in E. contradiction.
Qed.

(** The names of [Object.prototype] are not empty, and neither the empty
    string nor "undefined" is one of them. *)
Lemma prototype_truthy (key : string) :
  key ∈ JS.Object_prototype -> truthy key = true.
Proof.
  unfold JS.Object_prototype. intros H.
  repeat (apply elem_of_cons in H as [-> | H]; [reflexivity|]).
  apply elem_of_nil in H. destruct H.
Qed.

Lemma falsy_not_inherited (v : JS.value) :
  v = JS.undefined \/ v = JS.str "" -> JS.ToString v ∉ JS.Object_prototype.
Proof.
  intros [-> | ->]; apply (bool_decide_unpack _); vm_compute; exact I.
Qed.

(** ** The known-user path *)

Section KnownUser.

Variable d : AppData.
Variable params : Params.
Variable userProfile : UserProfile.t.
Hypothesis known :
  userProfiles d !! JS.ToString (userId params) = Some userProfile.

Lemma known_result :
  generateRecommendation d params =
  recommend (JS.own userProfile)
    (JS.get (categoryAverages d) (JS.ToString (category params))) params.
Proof. unfold generateRecommendation. rewrite (get_own _ _ _ known). reflexivity. Qed.

Lemma known_amount :
  amount (generateRecommendation d params) =
  JS.number
    (JS.Math_max
       (JS.Math_round
          (UserProfile.avg_amount userProfile
           * (JS.ToNumber_lookup
                (JS.get (categoryAverages d) (JS.ToString (category params)))
              / 500)
           * hourMultiplier (JS.parseInt (hour params)))%float) 50).
Proof. rewrite known_result. reflexivity. Qed.

Lemma known_amount_of (categoryAvg : float) :
  categoryAverages d !! JS.ToString (category params) = Some categoryAvg ->
  amount (generateRecommendation d params) =
  JS.number
    (JS.Math_max
       (JS.Math_round
          (UserProfile.avg_amount userProfile * (categoryAvg / 500)
           * hourMultiplier (JS.parseInt (hour params)))%float) 50).
Proof. intros Hc. rewrite known_amount, (get_own _ _ _ Hc). reflexivity. Qed.

Lemma known_confidence :
  confidence (generateRecommendation d params) =
  confidenceOf (JS.own userProfile) params.
Proof. rewrite known_result. reflexivity. Qed.

Lemma known_cluster :
  cluster (generateRecommendation d params) =
  JS.str (UserProfile.cluster_name userProfile).
Proof. rewrite known_result. reflexivity. Qed.

End KnownUser.

(** C1. With the user in the profiles table and the category in the averages
    table, the amount is
    [max(round(avg_amount * (categoryAverages[category] / 500) * m), 50)]
    where the multiplier [m] is a function of the request's hour alone:
    the product is rounded to the nearest integer, and the amount is the
    larger of that integer and 50. *)
Theorem amount_formula (d : AppData) (params : Params)
    (userProfile : UserProfile.t) (categoryAvg : float) :
  userProfiles d !! JS.ToString (userId params) = Some userProfile ->
  categoryAverages d !! JS.ToString (category params) = Some categoryAvg ->
  let product :=
    (UserProfile.avg_amount userProfile * (categoryAvg / 500)
     * hourMultiplier (JS.parseInt (hour params)))%float in
  exists r a : float,
    rounded product r /\ floored_at_50 r a /\
    amount (generateRecommendation d params) = JS.number a /\
    a = JS.Math_max (JS.Math_round product) 50.
Proof.
  intros Hu Hc product.
  exists (JS.Math_round product), (JS.Math_max (JS.Math_round product) 50).
  split; [apply Math_round_rounded|].
  split; [apply Math_max_floored|].
  split; [|reflexivity].
  unfold generateRecommendation.
  rewrite (get_own _ _ _ Hu), (get_own _ _ _ Hc). reflexivity.
Qed.

Lemma confidenceOf_cases (userProfile : UserProfile.t) (params : Params) :
  confidenceOf (JS.own userProfile) params =
  match JS.strict_eq_string (UserProfile.preferred_category userProfile)
                            (category params),
        (10 <? UserProfile.transactions userProfile)%float with
  | false, false => 70
  | false, true => 80
  | true, false => 90
  | true, true => 95
  end%float.
Proof.
  unfold confidenceOf. cbn [JS.field JS.strict_eq JS.ToNumber].
  destruct (JS.strict_eq_string _ _), (10 <? _)%float; reflexivity.
Qed.

(** An inherited object has neither a preferred category nor a transaction
    count: the first bonus is given when the request has no category. *)
Lemma confidenceOf_inherited (name : string) (params : Params) :
  confidenceOf (JS.inherited name) params =
  match category params with
  | JS.undefined => 90
  | JS.str _ => 70
  end%float.
Proof. unfold confidenceOf. destruct (category params); reflexivity. Qed.

(** C2. For a known user the confidence is 70, plus 20 when the preferred
    category is the request's category, plus 10 when the transaction count
    is above 10, capped at 95: that is 70, 80, 90 or 95 according to the
    two conditions. *)
Theorem confidence_known (d : AppData) (params : Params)
    (userProfile : UserProfile.t) :
  userProfiles d !! JS.ToString (userId params) = Some userProfile ->
  let c := confidence (generateRecommendation d params) in
  let same :=
    category params = JS.str (UserProfile.preferred_category userProfile) in
  let many := (10 <? UserProfile.transactions userProfile)%float = true in
  (~ same -> ~ many -> c = 70%float) /\
  (~ same -> many -> c = 80%float) /\
  (same -> ~ many -> c = 90%float) /\
  (same -> many -> c = 95%float) /\
  (forall b1 b2 : bool, (b1 = true <-> same) -> (b2 = true <-> many) ->
   let sum := (70 + (if b1 then 20 else 0) + (if b2 then 10 else 0))%float in
   c = if (sum <=? 95)%float then sum else 95%float) /\
  (c = 70 \/ c = 80 \/ c = 90 \/ c = 95)%float.
Proof.
  intros Hu c same many. subst c same many.
  rewrite (known_confidence d params userProfile Hu), confidenceOf_cases.
  pose proof (strict_eq_string_spec
                (UserProfile.preferred_category userProfile)
                (category params)) as Hs.
  destruct (JS.strict_eq_string _ _), (10 <? _)%float;
    (split; [|split; [|split; [|split; [|split]]]]);
    try tauto;
    try (intros H1 H2; try reflexivity;
         first [ exfalso; apply H1; apply Hs; reflexivity
               | exfalso; apply H2; reflexivity
               | exfalso; apply Hs in H1; discriminate H1
               | discriminate H2 ]).
  all: intros [|] [|] [A1 A2] [B1 B2]; try reflexivity; exfalso;
    first [ apply Hs in A1; [discriminate A1 | reflexivity]
          | specialize (B1 eq_refl); discriminate B1
          | specialize (A2 (proj1 Hs eq_refl)); discriminate A2
          | specialize (B2 eq_refl); discriminate B2 ].
Qed.

(** C6. With the user known and the category missing from the averages
    table, the lookup has no number, the multiplier is [NaN], and the
    amount returned is [NaN]; the call still returns. *)
Theorem amount_nan_without_category (d : AppData) (params : Params)
    (userProfile : UserProfile.t) :
  userProfiles d !! JS.ToString (userId params) = Some userProfile ->
  categoryAverages d !! JS.ToString (category params) = None ->
  (JS.ToNumber_lookup
     (JS.get (categoryAverages d) (JS.ToString (category params))) / 500)%float
    = nan
  /\ amount (generateRecommendation d params) = JS.number nan
  /\ exists a, amount (generateRecommendation d params) = JS.number a
               /\ JS.isNaN a = true.
Proof.
  intros Hu Hc.
  assert (Ha : amount (generateRecommendation d params) = JS.number nan).
  { rewrite (known_amount d params userProfile Hu).
    rewrite (ToNumber_lookup_None _ _ Hc).
    change (nan / 500)%float with nan.
    rewrite mul_nan_r, mul_nan_l. reflexivity. }
  rewrite (ToNumber_lookup_None _ _ Hc).
  split; [reflexivity|]. split; [exact Ha|].
  exists nan. split; [exact Ha | reflexivity].
Qed.

(** C9. Two requests with the same user, category and hour get the same
    result, whatever their location and payment method. *)
Theorem location_payment_irrelevant (d : AppData) (p q : Params) :
  userId p = userId q -> category p = category q -> hour p = hour q ->
  generateRecommendation d p = generateRecommendation d q.
Proof.
  destruct p as [u c l m h], q as [u' c' l' m' h']; simpl.
  intros -> -> ->. reflexivity.
Qed.





(** ** The unknown-user path *)

Section UnknownUser.

Variable d : AppData.
Variable params : Params.
Hypothesis unknown :
  JS.get (userProfiles d) (JS.ToString (userId params)) = JS.absent.

Lemma unknown_result :
  generateRecommendation d params =
  {| amount :=
       JS.or_default
         (JS.get (categoryAverages d) (JS.ToString (category params))) 500;
     confidence := 75;
     cluster := JS.str "Unknown";
     reasoning := "Based on category average and system patterns" |}.
Proof. unfold generateRecommendation. rewrite unknown. reflexivity. Qed.

(** [categoryAvg || 500] keeps an average that is neither zero nor [NaN]. *)
Lemma unknown_amount_truthy (categoryAvg : float) :
  categoryAverages d !! JS.ToString (category params) = Some categoryAvg ->
  JS.ToBoolean categoryAvg = true ->
  amount (generateRecommendation d params) = JS.number categoryAvg.
Proof.
  intros Hc Ht. rewrite unknown_result, (get_own _ _ _ Hc). simpl.
  rewrite Ht. reflexivity.
Qed.

Lemma unknown_amount_default :
  categoryAverages d !! JS.ToString (category params) = None ->
  JS.ToString (category params) ∉ JS.Object_prototype ->
  amount (generateRecommendation d params) = JS.number 500.
Proof.
  intros Hc Hp. rewrite unknown_result, (get_absent _ _ Hc Hp). reflexivity.
Qed.

End UnknownUser.


Lemma falsy_number (c : float) :
  (c =? 0)%float = true \/ is_nan c = true -> JS.ToBoolean c = false.
Proof.
  unfold JS.ToBoolean, JS.isNaN. intros [-> | ->]; [reflexivity|].
  rewrite orb_true_r. reflexivity.
Qed.

(** C10. On both paths the confidence lies between 70 and 95; in
    particular it is never 0. *)
Theorem confidence_range (d : AppData) (params : Params) :
  (70 <=? confidence (generateRecommendation d params))%float = true /\
  (confidence (generateRecommendation d params) <=? 95)%float = true /\
  (confidence (generateRecommendation d params) =? 0)%float = false.
Proof.
  unfold generateRecommendation.
  destruct (JS.get (userProfiles d) (JS.ToString (userId params)))
    as [up|name|]; cbn [recommend confidence].
  - rewrite confidenceOf_cases.
    destruct (JS.strict_eq_string _ _), (10 <? _)%float;
      repeat split; reflexivity.
  - rewrite confidenceOf_inherited.
    destruct (category params); repeat split; reflexivity.
  - repeat split; reflexivity.
Qed.

(** ** The tables shipped in [appData] *)

Ltac entries H :=
  unfold appData in H; cbn [userProfiles categoryAverages] in H;
  apply elem_of_list_to_map_2 in H;
  unfold userProfiles_entries, categoryAverages_entries in H;
  repeat (apply elem_of_cons in H as [H | H]);
  [ injection H as _ -> .. | apply elem_of_nil in H; destruct H ].





Lemma sound_product_not_nan (avg c h : float) :
  is_finite avg = true -> (avg =? 0)%float = false -> is_nan c = false ->
  not_nan (avg * (c / 500) * hourMultiplier h)%float.
Proof.
  intros Hfin Hnz Hnan. apply mul_not_nan_r.
  - apply mul_not_nan_l; [apply nonzero_finite; assumption|].
    apply div_500_not_nan, is_nan_false, Hnan.
  - apply hourMultiplier_finite.
Qed.

(** The lower bound holds for any tables whose entries are what the data
    model says: a finite, non-zero average amount in the profile and a
    number in the averages table.  The product is then never [NaN],
    [Math.round] keeps it so, and [Math.max] returns at least 50. *)
Lemma amount_ge_50_on_sound_tables (d : AppData) (params : Params)
    (userProfile : UserProfile.t) (categoryAvg : float) :
  userProfiles d !! JS.ToString (userId params) = Some userProfile ->
  categoryAverages d !! JS.ToString (category params) = Some categoryAvg ->
  is_finite (UserProfile.avg_amount userProfile) = true ->
  (UserProfile.avg_amount userProfile =? 0)%float = false ->
  is_nan categoryAvg = false ->
  exists a, amount (generateRecommendation d params) = JS.number a /\
            (50 <=? a)%float = true.
Proof.
  intros Hu Hc Hfin Hnz Hnan. eexists.
  split; [exact (known_amount_of d params _ Hu _ Hc)|].
  apply Math_max_50, Math_round_not_nan, sound_product_not_nan; assumption.
Qed.

Lemma leb_not_nan (a x : float) : (a <=? x)%float = true -> is_nan x = false.
Proof.
  intros H. apply is_nan_false. intros E. rewrite leb_spec, E in H.
  destruct (Prim2SF a); discriminate.
Qed.

Lemma is_nan_true (x : float) : is_nan x = true -> Prim2SF x = S754_nan.
Proof.
  intros H. destruct (Prim2SF x) as [s|s| |s m e] eqn:E; try reflexivity;
    exfalso;
    assert (Hn : not_nan x) by (unfold not_nan; rewrite E; discriminate);
    apply is_nan_false in Hn; congruence.
Qed.

Lemma Math_round_nan (x : float) : is_nan x = true -> JS.Math_round x = nan.
Proof.
  intros H. apply is_nan_true in H. unfold JS.Math_round. rewrite H.
  apply Prim2SF_inj. rewrite H. reflexivity.
Qed.

(** C7. With the user in the profiles table and the category in the
    averages table, the amount is at least 50: for any tables, as soon as
    the product is a number, which it is when the profile's average is
    finite and not zero and the category's average is a number, as in the
    shipped tables. *)
Theorem amount_at_least_50 (d : AppData) (params : Params)
    (userProfile : UserProfile.t) (categoryAvg : float) :
  userProfiles d !! JS.ToString (userId params) = Some userProfile ->
  categoryAverages d !! JS.ToString (category params) = Some categoryAvg ->
  let product :=
    (UserProfile.avg_amount userProfile * (categoryAvg / 500)
     * hourMultiplier (JS.parseInt (hour params)))%float in
  exists a : float,
    amount (generateRecommendation d params) = JS.number a /\
    ((50 <=? a)%float = true <-> is_nan product = false) /\
    (is_finite (UserProfile.avg_amount userProfile) = true ->
     (UserProfile.avg_amount userProfile =? 0)%float = false ->
     is_nan categoryAvg = false ->
     (50 <=? a)%float = true) /\
    (userProfiles d = userProfiles appData ->
     categoryAverages d = categoryAverages appData ->
     (50 <=? a)%float = true).
Proof.
  intros Hu Hc product. eexists.
  split; [exact (known_amount_of d params _ Hu _ Hc)|].
  fold product.
  assert (Hp : is_nan product = false ->
               (50 <=? JS.Math_max (JS.Math_round product) 50)%float = true).
  { intros Hn. apply Math_max_50, Math_round_not_nan, is_nan_false, Hn. }
  split; [split; [|exact Hp]|split].
  - intros H. destruct (is_nan product) eqn:Hn; [|reflexivity].
    rewrite (Math_round_nan _ Hn) in H. discriminate H.
  - intros Hfin Hnz Hnan. apply Hp, is_nan_false.
    apply sound_product_not_nan; assumption.
  - intros Hdu Hdc. apply Hp, is_nan_false. rewrite Hdu in Hu.
    rewrite Hdc in Hc. subst product.
    apply sound_product_not_nan; [entries Hu | entries Hu | entries Hc];
      reflexivity.
Qed.

(** X2. On the shipped tables the binary64 computation gives the amount of the
    formula read over the rationals with the decimal multipliers 0.8, 1.2,
    1.1 and 0.7: no product is close enough to a half for the rounding of
    the operations to change the result. *)
Lemma amount_exact (params : Params) (userProfile : UserProfile.t)
    (categoryAvg : float) :
  userProfiles appData !! JS.ToString (userId params) = Some userProfile ->
  categoryAverages appData !! JS.ToString (category params)
    = Some categoryAvg ->
  amount (generateRecommendation appData params) =
  JS.number
    (JS.of_Z (exact_amount (integer_value (UserProfile.avg_amount userProfile))
                           (integer_value categoryAvg)
                           (hourTenths (JS.parseInt (hour params))))).
Proof.
  intros Hu Hc. rewrite (known_amount_of appData params _ Hu _ Hc).
  unfold hourMultiplier, hourTenths.
  destruct ((6 <=? _)%float && _);
    [|destruct ((11 <=? _)%float && _);
      [|destruct ((18 <=? _)%float && _)]];
    entries Hu; entries Hc; vm_compute; reflexivity.
Qed.

(** ** Scenarios *)

(** C5. A profile with average 1017, 8 transactions and preferred category
    "Entertainment", asked at hour 13 for another category whose average is
    398: the category multiplier is 0.796, the hour multiplier 1.2, the
    amount [round(1017 * 0.796 * 1.2) = 971] and the confidence 70. *)
Theorem scenario_1017_398_13 (d : AppData) (params : Params)
    (userProfile : UserProfile.t) :
  userProfiles d !! JS.ToString (userId params) = Some userProfile ->
  UserProfile.avg_amount userProfile = 1017%float ->
  UserProfile.transactions userProfile = 8%float ->
  UserProfile.preferred_category userProfile = "Entertainment" ->
  categoryAverages d !! JS.ToString (category params) = Some 398%float ->
  category params <> JS.str "Entertainment" ->
  JS.parseInt (hour params) = 13%float ->
  (JS.ToNumber_lookup
     (JS.get (categoryAverages d) (JS.ToString (category params))) / 500
   = 0.796)%float /\
  hourMultiplier (JS.parseInt (hour params)) = 1.2%float /\
  JS.Math_round (1017 * 0.796 * 1.2)%float = 971%float /\
  amount (generateRecommendation d params) = JS.number 971 /\
  confidence (generateRecommendation d params) = 70%float.
Proof.
  intros Hu Havg Htx Hpref Hc Hne Hh.
  rewrite (known_amount_of d params _ Hu _ Hc).
  rewrite (known_confidence d params _ Hu), confidenceOf_cases.
  rewrite (get_own _ _ _ Hc), Hh, Havg, Htx, Hpref,
    (strict_eq_string_neq _ _ Hne).
  repeat split; reflexivity.
Qed.

Lemma scenario_1017_398_13_witness :
  amount (generateRecommendation appData_with_cinema
            (request "USER_0001" "Cinema" "13")) = JS.number 971 /\
  confidence (generateRecommendation appData_with_cinema
                (request "USER_0001" "Cinema" "13")) = 70%float.
Proof.
  refine (let H := scenario_1017_398_13 appData_with_cinema
            (request "USER_0001" "Cinema" "13")
            (UserProfile.mk 1017 1 "High-Value Users" 8 "Entertainment")
            _ eq_refl eq_refl eq_refl _ _ eq_refl in
          conj (proj1 (proj2 (proj2 (proj2 H)))) (proj2 (proj2 (proj2 (proj2 H))))).
  - vm_compute. reflexivity.
  - vm_compute. reflexivity.
  - discriminate.
Defined.

(** In the shipped tables the only category of average 398 is the preferred
    one of that profile, and the same request scores 971 with confidence 90. *)
Example scenario_entertainment :
  generateRecommendation appData (request "USER_0001" "Entertainment" "13") =
  {| amount := JS.number 971; confidence := 90;
     cluster := JS.str "High-Value Users";
     reasoning := "Based on High-Value Users spending pattern, Entertainment preferences, and transaction time analysis" |}.
Proof. vm_compute. reflexivity. Qed.

Example scenario_unknown_shopping :
  generateRecommendation appData (request "USER_9999" "Shopping" "13") =
  {| amount := JS.number 842; confidence := 75; cluster := JS.str "Unknown";
     reasoning := "Based on category average and system patterns" |}.
Proof. vm_compute. reflexivity. Qed.

(** ** Instances *)

Lemma amount_formula_witness :
  amount (generateRecommendation appData
            (request "USER_0655" "Fuel" "20")) = JS.number 1532 /\
  amount (generateRecommendation appData_with_free
            (request "USER_0655" "Free" "20")) = JS.number 50.
Proof.
  split.
  - destruct (amount_formula appData (request "USER_0655" "Fuel" "20")
                (UserProfile.mk 1360 3 "Active Users" 12 "Food & Dining") 512)
      as (r & a & _ & _ & Ha & Hm);
      [vm_compute; reflexivity | vm_compute; reflexivity |].
    rewrite Ha, Hm. vm_compute. reflexivity.
  - destruct (amount_formula appData_with_free
                (request "USER_0655" "Free" "20")
                (UserProfile.mk 1360 3 "Active Users" 12 "Food & Dining") 0)
      as (r & a & _ & _ & Ha & Hm);
      [vm_compute; reflexivity | vm_compute; reflexivity |].
    rewrite Ha, Hm. vm_compute. reflexivity.
Defined.

Lemma confidence_known_witness :
  confidence (generateRecommendation appData
                (request "USER_0001" "Fuel" "9")) = 70%float /\
  confidence (generateRecommendation appData
                (request "USER_0655" "Fuel" "9")) = 80%float /\
  confidence (generateRecommendation appData
                (request "USER_0001" "Entertainment" "9")) = 90%float /\
  confidence (generateRecommendation appData
                (request "USER_0655" "Food & Dining" "9")) = 95%float.
Proof.
  split; [|split; [|split]].
  - destruct (confidence_known appData (request "USER_0001" "Fuel" "9")
                (UserProfile.mk 1017 1 "High-Value Users" 8 "Entertainment"))
      as (H & _); [vm_compute; reflexivity|].
    apply H; [discriminate | intros E; vm_compute in E; discriminate E].
  - destruct (confidence_known appData (request "USER_0655" "Fuel" "9")
                (UserProfile.mk 1360 3 "Active Users" 12 "Food & Dining"))
      as (_ & H & _); [vm_compute; reflexivity|].
    apply H; [discriminate | vm_compute; reflexivity].
  - destruct (confidence_known appData
                (request "USER_0001" "Entertainment" "9")
                (UserProfile.mk 1017 1 "High-Value Users" 8 "Entertainment"))
      as (_ & _ & H & _); [vm_compute; reflexivity|].
    apply H; [reflexivity | intros E; vm_compute in E; discriminate E].
  - destruct (confidence_known appData
                (request "USER_0655" "Food & Dining" "9")
                (UserProfile.mk 1360 3 "Active Users" 12 "Food & Dining"))
      as (_ & _ & _ & H & _); [vm_compute; reflexivity|].
    apply H; [reflexivity | vm_compute; reflexivity].
Defined.



Lemma amount_nan_without_category_witness :
  amount (generateRecommendation appData
            (request "USER_0003" "Rent" "8")) = JS.number nan.
Proof.
  apply (amount_nan_without_category appData (request "USER_0003" "Rent" "8")
           (UserProfile.mk 850 0 "Conservative Spenders" 6 "Groceries"));
    vm_compute; reflexivity.
Defined.

(** The floor at work: an average of zero gives a product of zero, and the
    amount is 50. *)
Lemma amount_at_least_50_witness :
  exists a : float,
    amount (generateRecommendation appData_with_free
              (request "USER_0001" "Free" "13")) = JS.number a /\
    a = 50%float /\ (50 <=? a)%float = true.
Proof.
  destruct (amount_at_least_50 appData_with_free
              (request "USER_0001" "Free" "13")
              (UserProfile.mk 1017 1 "High-Value Users" 8 "Entertainment") 0)
    as (a & Ha & _ & H & _);
    [vm_compute; reflexivity | vm_compute; reflexivity |].
  exists a. split; [exact Ha|]. split.
  - vm_compute in Ha. injection Ha as <-. reflexivity.
  - apply H; reflexivity.
Defined.

Lemma location_payment_irrelevant_witness :
  generateRecommendation appData (request "USER_0002" "Healthcare" "12") =
  generateRecommendation appData
    {| userId := JS.str "USER_0002"; category := JS.str "Healthcare";
       location := JS.str "Chennai"; paymentMethod := JS.undefined;
       hour := JS.str "12" |}.
Proof.
  apply location_payment_irrelevant; reflexivity.
Defined.


(** ** More on the scorer *)

(** X1. The floor of 50 for any tables whose profile average is a finite
    non-zero number and whose category average is a number: the amount is
    then a number, and at least 50. *)
Theorem amount_floor_any_tables (d : AppData) (params : Params)
    (userProfile : UserProfile.t) (categoryAvg : float) :
  userProfiles d !! JS.ToString (userId params) = Some userProfile ->
  categoryAverages d !! JS.ToString (category params) = Some categoryAvg ->
  is_finite (UserProfile.avg_amount userProfile) = true ->
  (UserProfile.avg_amount userProfile =? 0)%float = false ->
  is_nan categoryAvg = false ->
  exists a : float,
    amount (generateRecommendation d params) = JS.number a /\
    is_nan a = false /\ (50 <=? a)%float = true.
Proof.
  intros Hu Hc Hfin Hnz Hnan.
  destruct (amount_ge_50_on_sound_tables d params _ _ Hu Hc Hfin Hnz Hnan)
    as (a & Ha & H).
  exists a. split; [exact Ha|].
  split; [exact (leb_not_nan _ _ H) | exact H].
Qed.

Lemma amount_floor_any_tables_witness :
  exists a : float,
    amount (generateRecommendation appData_with_cinema
              (request "USER_0003" "Cinema" "23")) = JS.number a /\
    is_nan a = false /\ (50 <=? a)%float = true.
Proof.
  apply (amount_floor_any_tables appData_with_cinema
           (request "USER_0003" "Cinema" "23")
           (UserProfile.mk 850 0 "Conservative Spenders" 6 "Groceries") 398);
    vm_compute; reflexivity.
Defined.

Lemma amount_exact_witness :
  amount (generateRecommendation appData
            (request "USER_0002" "Education" "19")) = JS.number 4389.
Proof.
  rewrite (amount_exact (request "USER_0002" "Education" "19")
             (UserProfile.mk 1004 1 "High-Value Users" 8 "Healthcare") 1987);
    vm_compute; reflexivity.
Defined.

(** X3. For an unknown user, a category whose average is 0 or [NaN] gets the
    default 500, not its average: [categoryAvg || 500] tests truthiness. *)
Theorem unknown_amount_falsy (d : AppData) (params : Params)
    (categoryAvg : float) :
  userProfiles d !! JS.ToString (userId params) = None ->
  JS.ToString (userId params) ∉ JS.Object_prototype ->
  categoryAverages d !! JS.ToString (category params) = Some categoryAvg ->
  (categoryAvg =? 0)%float = true \/ is_nan categoryAvg = true ->
  amount (generateRecommendation d params) = JS.number 500.
Proof.
  intros Hu Hp Hc Hf.
  rewrite (unknown_result d params (get_absent _ _ Hu Hp)), (get_own _ _ _ Hc).
  simpl. rewrite (falsy_number _ Hf). reflexivity.
Qed.

Lemma not_inherited_USER_9999 : "USER_9999" ∉ JS.Object_prototype.
Proof. apply (bool_decide_unpack _). vm_compute. exact I. Qed.

Lemma unknown_amount_falsy_witness :
  amount (generateRecommendation appData_with_free
            (request "USER_9999" "Free" "13")) = JS.number 500.
Proof.
  apply (unknown_amount_falsy appData_with_free
           (request "USER_9999" "Free" "13") 0);
    [vm_compute; reflexivity | exact not_inherited_USER_9999
    | vm_compute; reflexivity | left; reflexivity].
Defined.

(** X4. For users who name neither an entry of the profiles table nor an
    inherited property the whole result is a function of the category: the
    user's identity and the hour play no part. *)
Theorem unknown_depends_on_category_only (d : AppData) (p q : Params) :
  userProfiles d !! JS.ToString (userId p) = None ->
  JS.ToString (userId p) ∉ JS.Object_prototype ->
  userProfiles d !! JS.ToString (userId q) = None ->
  JS.ToString (userId q) ∉ JS.Object_prototype ->
  category p = category q ->
  generateRecommendation d p = generateRecommendation d q.
Proof.
  intros Hp Hp' Hq Hq' Hc.
  rewrite (unknown_result d p (get_absent _ _ Hp Hp')).
  rewrite (unknown_result d q (get_absent _ _ Hq Hq')), Hc.
  reflexivity.
Qed.

Lemma unknown_depends_on_category_only_witness :
  generateRecommendation appData (request "USER_9999" "Fuel" "8") =
  generateRecommendation appData
    {| userId := JS.undefined; category := JS.str "Fuel";
       location := JS.undefined; paymentMethod := JS.undefined;
       hour := JS.str "21" |}.
Proof.
  apply unknown_depends_on_category_only;
    [ vm_compute; reflexivity | exact not_inherited_USER_9999
    | vm_compute; reflexivity
    | exact (falsy_not_inherited JS.undefined (or_introl eq_refl))
    | reflexivity ].
Defined.

(** X5. Confidence, cluster and reasoning depend on the profiles table, the
    user and the category only: neither the hour nor the averages table
    changes them. *)
Theorem confidence_ignores_hour_and_averages (d d' : AppData) (p q : Params) :
  userProfiles d = userProfiles d' ->
  userId p = userId q -> category p = category q ->
  confidence (generateRecommendation d p)
    = confidence (generateRecommendation d' q) /\
  cluster (generateRecommendation d p)
    = cluster (generateRecommendation d' q) /\
  reasoning (generateRecommendation d p)
    = reasoning (generateRecommendation d' q).
Proof.
  intros Hd Hu Hc. unfold generateRecommendation.
  rewrite <- Hd, <- Hu, <- Hc.
  destruct (JS.get (userProfiles d) (JS.ToString (userId p))) as [up|name|];
    cbn [recommend confidence cluster reasoning];
    unfold confidenceOf; rewrite <- ?Hc; repeat split; reflexivity.
Qed.

Lemma confidence_ignores_hour_and_averages_witness :
  confidence (generateRecommendation appData
                (request "USER_0755" "Transportation" "3")) =
  confidence (generateRecommendation appData_with_free
                (request "USER_0755" "Transportation" "12")).
Proof.
  apply (confidence_ignores_hour_and_averages appData appData_with_free);
    reflexivity.
Defined.

(** X6. On the shipped tables a larger time-of-day multiplier never gives a
    smaller amount for the same user and category: lunch is highest, then
    evening, morning, night. *)
Theorem amount_ordered_by_band (p q : Params) (userProfile : UserProfile.t)
    (categoryAvg : float) :
  userId p = userId q -> category p = category q ->
  userProfiles appData !! JS.ToString (userId p) = Some userProfile ->
  categoryAverages appData !! JS.ToString (category p) = Some categoryAvg ->
  (hourMultiplier (JS.parseInt (hour p))
   <=? hourMultiplier (JS.parseInt (hour q)))%float = true ->
  exists a b : float,
    amount (generateRecommendation appData p) = JS.number a /\
    amount (generateRecommendation appData q) = JS.number b /\
    (a <=? b)%float = true.
Proof.
  intros Hu Hc Hup Hca.
  assert (Huq := Hup). rewrite Hu in Huq.
  assert (Hcq := Hca). rewrite Hc in Hcq.
  rewrite (known_amount_of appData p _ Hup _ Hca).
  rewrite (known_amount_of appData q _ Huq _ Hcq).
  clear Huq Hcq. intros H. eexists. eexists.
  split; [reflexivity|]. split; [reflexivity|]. revert H.
  destruct (hourMultiplier_cases (JS.parseInt (hour p)))
    as [-> | [-> | [-> | ->]]];
  destruct (hourMultiplier_cases (JS.parseInt (hour q)))
    as [-> | [-> | [-> | ->]]];
  intros H; vm_compute in H; try discriminate H; clear H;
  entries Hup; entries Hca; vm_compute; reflexivity.
Qed.

Lemma amount_ordered_by_band_witness :
  exists a b : float,
    amount (generateRecommendation appData (request "USER_0001" "Fuel" "9"))
    = JS.number a /\
    amount (generateRecommendation appData (request "USER_0001" "Fuel" "19"))
    = JS.number b /\
    (a <=? b)%float = true.
Proof.
  apply (amount_ordered_by_band (request "USER_0001" "Fuel" "9")
           (request "USER_0001" "Fuel" "19")
           (UserProfile.mk 1017 1 "High-Value Users" 8 "Entertainment") 512);
    vm_compute; reflexivity.
Defined.

(** X7. On the shipped tables every amount lies between 118 and 6486, so the
    floor of 50 is never what decides it: the amount is the rounded
    product itself. *)
Theorem amount_range_shipped (params : Params) (userProfile : UserProfile.t)
    (categoryAvg : float) :
  userProfiles appData !! JS.ToString (userId params) = Some userProfile ->
  categoryAverages appData !! JS.ToString (category params)
    = Some categoryAvg ->
  exists a : float,
    amount (generateRecommendation appData params) = JS.number a /\
    (118 <=? a)%float = true /\ (a <=? 6486)%float = true /\
    a = JS.Math_round (UserProfile.avg_amount userProfile * (categoryAvg / 500)
          * hourMultiplier (JS.parseInt (hour params)))%float.
Proof.
  intros Hu Hc. eexists.
  split; [exact (known_amount_of appData params _ Hu _ Hc)|].
  destruct (hourMultiplier_cases (JS.parseInt (hour params)))
    as [-> | [-> | [-> | ->]]];
  entries Hu; entries Hc; vm_compute; repeat split; reflexivity.
Qed.

Lemma amount_range_shipped_witness :
  exists a : float,
    amount (generateRecommendation appData
              (request "USER_0755" "Transportation" "2")) = JS.number a /\
    (118 <=? a)%float = true /\ (a <=? 6486)%float = true /\
    a = JS.Math_round (713 * (118 / 500) * hourMultiplier 2)%float.
Proof.
  apply (amount_range_shipped (request "USER_0755" "Transportation" "2")
           (UserProfile.mk 713 2 "Frequent Small Transactions" 15
                           "Transportation") 118);
    vm_compute; reflexivity.
Defined.

Lemma Math_max_nan (y : float) : JS.Math_max nan y = nan.
Proof. reflexivity. Qed.

(** X21. A user named like a property of [Object.prototype] is scored on the
    known-user path although the profiles table has no such entry: every
    field of the profile reads [undefined], so the amount is [NaN], the
    cluster [undefined], and the confidence 70, or 90 for a request
    without a category. *)
Theorem inherited_user_scored_as_known (d : AppData) (params : Params) :
  userProfiles d !! JS.ToString (userId params) = None ->
  JS.ToString (userId params) ∈ JS.Object_prototype ->
  let r := generateRecommendation d params in
  amount r = JS.number nan /\
  cluster r = JS.undefined /\
  (category params <> JS.undefined -> confidence r = 70%float) /\
  (category params = JS.undefined -> confidence r = 90%float) /\
  reasoning r =
    "Based on undefined spending pattern, " ++ JS.ToString (category params)
    ++ " preferences, and transaction time analysis".
Proof.
  intros Hu Hp r. subst r. unfold generateRecommendation.
  rewrite (get_inherited _ _ Hu Hp).
  cbn [recommend amount cluster confidence reasoning JS.field JS.ToNumber
       JS.value_of JS.ToString].
  rewrite !mul_nan_l, confidenceOf_inherited.
  split; [reflexivity|]. split; [reflexivity|].
  destruct (category params); repeat split; congruence.
Qed.

Lemma inherited_user_scored_as_known_witness :
  amount (generateRecommendation appData
            (request "toString" "Fuel" "12")) = JS.number nan /\
  confidence (generateRecommendation appData
                (request "toString" "Fuel" "12")) = 70%float.
Proof.
  destruct (inherited_user_scored_as_known appData
              (request "toString" "Fuel" "12")) as (Ha & _ & Hc & _).
  - vm_compute. reflexivity.
  - apply (bool_decide_unpack _). vm_compute. exact I.
  - split; [exact Ha | apply Hc; discriminate].
Defined.

(** ** Showing and submitting *)

(** X8. The confidence mark: success from 85 up, warning from 70 to below 85,
    error below 70 and for [NaN]. *)
Theorem confidenceStatus_bands (c : float) :
  ((85 <=? c)%float = true ->
   confidenceStatus c = ["status"; "status--success"]) /\
  ((70 <=? c)%float = true -> (c <? 85)%float = true ->
   confidenceStatus c = ["status"; "status--warning"]) /\
  ((c <? 70)%float = true \/ c = nan ->
   confidenceStatus c = ["status"; "status--error"]).
Proof.
  unfold confidenceStatus. repeat split.
  - intros ->. reflexivity.
  - intros H70 H85.
    rewrite (ltb_leb_chain c 85 85 H85 eq_refl), H70. reflexivity.
  - intros [H | ->]; [|reflexivity].
    rewrite (ltb_leb_chain c 70 85 H eq_refl).
    rewrite (ltb_leb_chain c 70 70 H eq_refl). reflexivity.
Qed.

Lemma confidenceStatus_bands_witness :
  confidenceStatus 85 = ["status"; "status--success"] /\
  confidenceStatus 70 = ["status"; "status--warning"] /\
  confidenceStatus 69.5 = ["status"; "status--error"].
Proof.
  split; [exact (proj1 (confidenceStatus_bands 85) eq_refl)|].
  split; [exact (proj1 (proj2 (confidenceStatus_bands 70)) eq_refl eq_refl)|].
  exact (proj2 (proj2 (confidenceStatus_bands 69.5)) (or_introl eq_refl)).
Defined.

Lemma scorer_status_not_error (d : AppData) (params : Params) :
  confidenceStatus (confidence (generateRecommendation d params))
  <> ["status"; "status--error"].
Proof.
  unfold generateRecommendation.
  destruct (JS.get (userProfiles d) (JS.ToString (userId params)))
    as [up|name|]; cbn [recommend confidence].
  - rewrite confidenceOf_cases.
    destruct (JS.strict_eq_string _ _), (10 <? _)%float; discriminate.
  - rewrite confidenceOf_inherited. destruct (category params); discriminate.
  - discriminate.
Qed.

(** X9. What the page shows for a recommendation of the scorer: success
    exactly for a user of the table asking for the preferred category, and
    for an inherited name with no category at all; warning otherwise, never
    error; the transaction count does not change the mark. *)
Theorem scorer_status (d : AppData) (params : Params) :
  confidenceStatus (confidence (generateRecommendation d params)) =
  match userProfiles d !! JS.ToString (userId params) with
  | Some userProfile =>
      if JS.strict_eq_string (UserProfile.preferred_category userProfile)
                             (category params)
      then ["status"; "status--success"]
      else ["status"; "status--warning"]
  | None =>
      if bool_decide (JS.ToString (userId params) ∈ JS.Object_prototype)
      then match category params with
           | JS.undefined => ["status"; "status--success"]
           | JS.str _ => ["status"; "status--warning"]
           end
      else ["status"; "status--warning"]
  end.
Proof.
  unfold generateRecommendation, JS.get.
  destruct (userProfiles d !! JS.ToString (userId params)) as [up|];
    [|destruct (bool_decide _)]; cbn [recommend confidence].
  - rewrite confidenceOf_cases.
    destruct (JS.strict_eq_string _ _), (10 <? _)%float; reflexivity.
  - rewrite confidenceOf_inherited. destruct (category params); reflexivity.
  - reflexivity.
Qed.

Lemma truthy_nonempty (s : string) : truthy s = true <-> s <> "".
Proof.
  unfold truthy. rewrite negb_true_iff. apply String.eqb_neq.
Qed.

(** X10. The form is refused, with the alert, exactly when one of user,
    category, location and payment method is empty; the hour never refuses
    it. *)
Theorem submit_alert_iff (d : AppData)
    (userId category location paymentMethod hour : string) :
  submit d userId category location paymentMethod hour
    = alert "Please fill in all fields"
  <-> userId = "" \/ category = "" \/ location = "" \/ paymentMethod = "".
Proof.
  unfold submit, truthy. rewrite !negb_involutive.
  destruct (String.eqb_spec userId ""), (String.eqb_spec category ""),
    (String.eqb_spec location ""), (String.eqb_spec paymentMethod "");
    simpl; split; try tauto; try discriminate; intros; tauto.
Qed.

(** X11. With the four fields filled the recommendation of the scorer is shown,
    whatever the hour field holds, and its mark is never the error one. *)
Theorem submit_shown (d : AppData)
    (userId category location paymentMethod hour : string) :
  userId <> "" -> category <> "" -> location <> "" -> paymentMethod <> "" ->
  exists r,
    submit d userId category location paymentMethod hour = shown r /\
    r = generateRecommendation d
          (formParams userId category location paymentMethod hour) /\
    confidenceStatus (confidence r) <> ["status"; "status--error"].
Proof.
  intros Hu Hc Hl Hp. eexists. split; [|split; [reflexivity|]].
  - unfold submit.
    rewrite (proj2 (truthy_nonempty _) Hu), (proj2 (truthy_nonempty _) Hc),
      (proj2 (truthy_nonempty _) Hl), (proj2 (truthy_nonempty _) Hp).
    reflexivity.
  - apply scorer_status_not_error.
Qed.

Lemma submit_shown_witness :
  exists r,
    submit appData "USER_0001" "Fuel" "Mumbai" "PhonePe" "" = shown r /\
    amount r = JS.number 729.
Proof.
  destruct (submit_shown appData "USER_0001" "Fuel" "Mumbai" "PhonePe" "")
    as (r & Hs & Hr & _); try discriminate.
  exists r. split; [exact Hs|]. rewrite Hr. vm_compute. reflexivity.
Defined.

(** ** Navigation *)

Import DOM.

Set Warnings "-clear-no-such-hyp".

Lemma forEach_lookup (nodes : list nat) (f : Element → Element)
    (doc : list Element) (j : nat) :
  (∀ e, f (f e) = f e) →
  forEach nodes f doc !! j =
  (if bool_decide (j ∈ nodes) then f else (λ e, e)) <$> doc !! j.
Proof.
  intros Hf. unfold forEach. revert doc.
  induction nodes as [|i nodes IH]; intros doc; cbn [foldl].
  - case_bool_decide as H; [apply elem_of_nil in H; destruct H|].
    destruct (doc !! j); reflexivity.
  - rewrite IH, list_lookup_alter. destruct (decide (i = j)) as [->|Hne].
    + rewrite (bool_decide_eq_true_2 (j ∈ j :: nodes))
        by (apply elem_of_cons; auto).
      destruct (doc !! j) as [e|]; simpl; [|reflexivity].
      case_bool_decide; simpl; [rewrite Hf|]; reflexivity.
    + assert (E : bool_decide (j ∈ i :: nodes) = bool_decide (j ∈ nodes)).
      { apply bool_decide_ext. rewrite elem_of_cons. naive_solver. }
      rewrite E. reflexivity.
Qed.

Lemma remove_idem (c : string) (e : Element) :
  classList_remove c (classList_remove c e) = classList_remove c e.
Proof.
  destruct e as [i a cl]. unfold classList_remove; simpl. f_equal. set_solver.
Qed.

Lemma remove2_idem (e : Element) :
  (λ btn, classList_remove "loading" (classList_remove "active" btn))
    ((λ btn, classList_remove "loading" (classList_remove "active" btn)) e)
  = classList_remove "loading" (classList_remove "active" e).
Proof.
  destruct e as [i a cl]. unfold classList_remove; simpl. f_equal. set_solver.
Qed.

Lemma forEach_ids (nodes : list nat) (f : Element → Element)
    (doc : list Element) :
  (∀ e, el_id (f e) = el_id e) →
  el_id <$> forEach nodes f doc = el_id <$> doc.
Proof.
  intros Hf. unfold forEach. revert doc.
  induction nodes as [|i nodes IH]; intros doc; simpl; [reflexivity|].
  rewrite IH. rewrite (list_fmap_alter el_id f (λ x, x)).
  - apply list_alter_id. reflexivity.
  - apply Forall_forall. intros e _. apply Hf.
Qed.

Lemma alter_ids (i : nat) (f : Element → Element) (doc : list Element) :
  (∀ e, el_id (f e) = el_id e) →
  el_id <$> alter f i doc = el_id <$> doc.
Proof.
  intros Hf. rewrite (list_fmap_alter el_id f (λ x, x)).
  - apply list_alter_id. reflexivity.
  - apply Forall_forall. intros e _. apply Hf.
Qed.

Lemma getElementById_ids (doc doc' : list Element) (s : string) :
  el_id <$> doc = el_id <$> doc' →
  getElementById doc s = getElementById doc' s.
Proof. unfold getElementById. intros ->. reflexivity. Qed.

Lemma navClick_lookup (navButtons sections : list nat) (this : nat)
    (doc : list Element) (button : Element) (j : nat) :
  doc !! this = Some button →
  navClick navButtons sections this doc !! j =
  (λ e, {| el_id := el_id e; data_section := data_section e;
           classList :=
             classes_after navButtons sections this
               (getElementById doc (default "null" (data_section button)))
               j (classList e) |}) <$> doc !! j.
Proof.
  intros Hb. unfold navClick. rewrite Hb.
  set (d1 := alter _ this doc).
  set (d2 := forEach navButtons _ d1).
  set (d3 := alter _ this d2).
  set (d4 := forEach sections _ d3).
  assert (Hids : el_id <$> d4 = el_id <$> doc).
  { subst d4 d3 d2 d1.
    rewrite forEach_ids, alter_ids, forEach_ids, alter_ids by reflexivity.
    reflexivity. }
  rewrite (getElementById_ids d4 doc _ Hids).
  set (target := getElementById doc _).
  assert (H4 : d4 !! j =
    (λ e, {| el_id := el_id e; data_section := data_section e;
             classList :=
               classes_after navButtons sections this None j (classList e) |})
    <$> doc !! j).
  { subst d4 d3 d2 d1.
    rewrite (forEach_lookup _ _ _ _ (remove_idem "active")).
    rewrite list_lookup_alter.
    rewrite !(forEach_lookup _ _ _ _ remove2_idem).
    rewrite !list_lookup_alter.
    unfold classes_after.
    destruct (decide (this = j)) as [->|Hne].
    - rewrite Hb. repeat (case_decide; [|congruence]). simpl.
      rewrite !(bool_decide_eq_true_2 (j = j)) by reflexivity.
      rewrite ?(bool_decide_eq_false_2 (None = Some j)) by discriminate.
      destruct (bool_decide (j ∈ navButtons)), (bool_decide (j ∈ sections));
        reflexivity.
    - rewrite !(bool_decide_eq_false_2 (j = this)) by congruence.
      rewrite ?(bool_decide_eq_false_2 (None = Some j)) by discriminate.
      destruct (doc !! j) as [[i a c]|]; [|reflexivity]. simpl.
      destruct (bool_decide (j ∈ navButtons)), (bool_decide (j ∈ sections));
        reflexivity. }
  destruct target as [t|] eqn:Ht.
  - rewrite list_lookup_alter. destruct (decide (t = j)) as [->|Hne].
    + rewrite H4. destruct (doc !! j) as [[i a c]|]; [|reflexivity]. simpl.
      unfold classes_after, classList_add. simpl.
      rewrite (bool_decide_eq_true_2 (Some j = Some j)) by reflexivity.
      rewrite ?(bool_decide_eq_false_2 (None = Some j)) by discriminate.
      reflexivity.
    + rewrite H4. destruct (doc !! j) as [[i a c]|]; [|reflexivity]. simpl.
      unfold classes_after.
      rewrite (bool_decide_eq_false_2 (Some t = Some j)) by congruence.
      rewrite ?(bool_decide_eq_false_2 (None = Some j)) by discriminate.
      reflexivity.
  - exact H4.
Qed.

Lemma navClick_classes (navButtons sections : list nat) (this : nat)
    (doc : list Element) (button e : Element) (j : nat) :
  doc !! this = Some button → doc !! j = Some e →
  ∃ e', navClick navButtons sections this doc !! j = Some e' ∧
        el_id e' = el_id e ∧ data_section e' = data_section e ∧
        classList e' =
          classes_after navButtons sections this (targetOf doc this) j
            (classList e).
Proof.
  intros Hb Hj. rewrite (navClick_lookup _ _ _ _ _ j Hb), Hj. simpl.
  eexists. split; [reflexivity|]. unfold targetOf. rewrite Hb. auto.
Qed.

Lemma navClick_ids (navButtons sections : list nat) (this : nat)
    (doc : list Element) :
  el_id <$> navClick navButtons sections this doc = el_id <$> doc.
Proof.
  destruct (doc !! this) as [button|] eqn:Hb;
    [|unfold navClick; rewrite Hb; reflexivity].
  apply list_eq. intros j. rewrite !list_lookup_fmap.
  rewrite (navClick_lookup _ _ _ _ _ j Hb).
  destruct (doc !! j); reflexivity.
Qed.

Lemma navClick_length (navButtons sections : list nat) (this : nat)
    (doc : list Element) :
  length (navClick navButtons sections this doc) = length doc.
Proof.
  rewrite <- (length_fmap el_id), navClick_ids, length_fmap. reflexivity.
Qed.

Lemma navClick_target (navButtons sections : list nat) (this b : nat)
    (doc : list Element) :
  targetOf (navClick navButtons sections this doc) b = targetOf doc b.
Proof.
  destruct (doc !! this) as [button|] eqn:Hb;
    [|unfold navClick; rewrite Hb; reflexivity].
  unfold targetOf. rewrite (navClick_lookup _ _ _ _ _ b Hb).
  destruct (doc !! b) as [e|]; simpl; [|reflexivity].
  apply getElementById_ids, navClick_ids.
Qed.

Lemma active_after (navButtons sections : list nat) (this : nat)
    (target : option nat) (j : nat) (c : gset string) :
  "active" ∈ classes_after navButtons sections this target j c ↔
  target = Some j ∨
  ((j ∉ sections) ∧ (j = this ∨ ((j ∉ navButtons) ∧ ("active" ∈ c)))).
Proof.
  unfold classes_after. repeat case_bool_decide; set_solver.
Qed.

(** X12. After a click, a section is shown exactly when it is the element the
    button's [data-section] names; so at most one section is shown. *)
Theorem navClick_sections (navButtons sections : list nat) (this : nat)
    (doc : list Element) (button : Element) :
  doc !! this = Some button →
  (∀ j, j ∈ sections → (j < length doc)%nat →
     (hasClass "active" (navClick navButtons sections this doc) j = true
      ↔ targetOf doc this = Some j)) ∧
  (∀ i j, i ∈ sections → j ∈ sections →
     hasClass "active" (navClick navButtons sections this doc) i = true →
     hasClass "active" (navClick navButtons sections this doc) j = true →
     i = j).
Proof.
  intros Hb.
  assert (H : ∀ j, j ∈ sections →
    hasClass "active" (navClick navButtons sections this doc) j = true →
    targetOf doc this = Some j).
  { intros j Hj. unfold hasClass.
    destruct (doc !! j) as [e|] eqn:Hdj.
    - destruct (navClick_classes navButtons sections _ _ _ _ _ Hb Hdj)
        as (e' & -> & _ & _ & ->).
      rewrite bool_decide_eq_true, active_after. tauto.
    - rewrite (navClick_lookup navButtons sections _ _ _ j Hb), Hdj.
      discriminate. }
  split.
  - intros j Hj Hlen. split; [apply H, Hj|].
    intros Ht. unfold hasClass.
    destruct (lookup_lt_is_Some_2 doc j Hlen) as [e Hdj].
    destruct (navClick_classes navButtons sections _ _ _ _ _ Hb Hdj)
      as (e' & -> & _ & _ & ->).
    rewrite bool_decide_eq_true, active_after. auto.
  - intros i j Hi Hj Hai Haj.
    apply H in Hai, Haj; [|assumption..]. congruence.
Qed.

(** X13. A button whose [data-section] names no element blanks the page: after
    the click no section is shown. *)
Theorem navClick_dangling (navButtons sections : list nat) (this : nat)
    (doc : list Element) (button : Element) (j : nat) :
  doc !! this = Some button →
  getElementById doc (default "null" (data_section button)) = None →
  j ∈ sections →
  hasClass "active" (navClick navButtons sections this doc) j = false.
Proof.
  intros Hb Ht Hj. unfold hasClass.
  rewrite (navClick_lookup navButtons sections _ _ _ j Hb), Ht.
  destruct (doc !! j) as [e|]; simpl; [|reflexivity].
  apply bool_decide_eq_false. rewrite active_after. naive_solver.
Qed.

(** X14. Among the navigation buttons the clicked one is the only one marked,
    when it is not itself a section and the target is not a button. *)
Theorem navClick_buttons (navButtons sections : list nat) (this : nat)
    (doc : list Element) (button : Element) (j : nat) :
  doc !! this = Some button →
  this ∉ sections →
  (∀ t, targetOf doc this = Some t → t ∉ navButtons) →
  j ∈ navButtons → (j < length doc)%nat →
  hasClass "active" (navClick navButtons sections this doc) j
  = bool_decide (j = this).
Proof.
  intros Hb Hns Ht Hj Hlen. unfold hasClass.
  destruct (lookup_lt_is_Some_2 doc j Hlen) as [e Hdj].
  destruct (navClick_classes navButtons sections _ _ _ _ _ Hb Hdj)
    as (e' & -> & _ & _ & ->).
  apply bool_decide_ext. rewrite active_after. split.
  - intros [H | [_ [H | [H _]]]]; [|exact H|contradiction].
    destruct (Ht _ H Hj).
  - intros ->. auto.
Qed.

Lemma navClick_None (navButtons sections : list nat) (this : nat)
    (doc : list Element) :
  doc !! this = None → navClick navButtons sections this doc = doc.
Proof. intros H. unfold navClick. rewrite H. reflexivity. Qed.

Lemma classes_after_idem (navButtons sections : list nat) (this : nat)
    (target : option nat) (j : nat) (c : gset string) :
  classes_after navButtons sections this target j
    (classes_after navButtons sections this target j c)
  = classes_after navButtons sections this target j c.
Proof.
  unfold classes_after. repeat case_bool_decide; set_solver.
Qed.

(** X15. Clicking the same button again changes nothing. *)
Theorem navClick_idempotent (navButtons sections : list nat) (this : nat)
    (doc : list Element) :
  navClick navButtons sections this (navClick navButtons sections this doc)
  = navClick navButtons sections this doc.
Proof.
  destruct (doc !! this) as [button|] eqn:Hb;
    [|rewrite !(navClick_None _ _ _ _ Hb); reflexivity].
  apply list_eq. intros j.
  destruct (navClick_classes navButtons sections _ _ _ _ _ Hb Hb)
    as (button' & Hb' & _ & Hds & _).
  rewrite (navClick_lookup _ _ _ _ _ j Hb'), Hds.
  rewrite (getElementById_ids _ doc _ (navClick_ids _ _ _ _)).
  rewrite (navClick_lookup _ _ _ _ _ j Hb).
  destruct (doc !! j) as [e|]; simpl; [|reflexivity].
  rewrite classes_after_idem. reflexivity.
Qed.

Lemma classes_after_last (navButtons sections : list nat) (b1 b2 : nat)
    (t1 t2 : option nat) (j : nat) (c : gset string) :
  b1 ∈ navButtons →
  (∀ t, t1 = Some t → t ∈ navButtons ∨ t ∈ sections) →
  classes_after navButtons sections b2 t2 j
    (classes_after navButtons sections b1 t1 j c)
  = classes_after navButtons sections b2 t2 j c.
Proof.
  intros Hb1 Ht1. unfold classes_after.
  repeat case_bool_decide; simplify_eq;
    try (destruct (Ht1 _ eq_refl); contradiction); set_solver.
Qed.

(** X16. The page after two clicks is the page after the second one alone, when
    the first button's target is a section or a button (or is missing). *)
Theorem navClick_last_wins (navButtons sections : list nat) (b1 b2 : nat)
    (doc : list Element) (button2 : Element) :
  b1 ∈ navButtons →
  doc !! b2 = Some button2 →
  (∀ t, targetOf doc b1 = Some t → t ∈ navButtons ∨ t ∈ sections) →
  navClick navButtons sections b2 (navClick navButtons sections b1 doc)
  = navClick navButtons sections b2 doc.
Proof.
  intros Hb1 H2 Ht1.
  destruct (doc !! b1) as [button1|] eqn:H1;
    [|rewrite (navClick_None _ _ b1 _ H1); reflexivity].
  apply list_eq. intros j.
  destruct (navClick_classes navButtons sections _ _ _ _ _ H1 H2)
    as (button2' & H2' & _ & Hds & _).
  rewrite (navClick_lookup _ _ _ _ _ j H2'), Hds.
  rewrite (getElementById_ids _ doc _ (navClick_ids _ _ _ _)).
  rewrite (navClick_lookup _ _ _ _ _ j H1), (navClick_lookup _ _ _ _ _ j H2).
  destruct (doc !! j) as [e|]; simpl; [|reflexivity].
  rewrite classes_after_last; [reflexivity | exact Hb1 |].
  unfold targetOf in Ht1. rewrite H1 in Ht1. exact Ht1.
Qed.

Lemma classes_after_other (navButtons sections : list nat) (this : nat)
    (target : option nat) (j : nat) (cl : gset string) (c : string) :
  c ≠ "active" → c ≠ "loading" →
  (c ∈ classes_after navButtons sections this target j cl ↔ c ∈ cl).
Proof.
  intros Ha Hl. unfold classes_after. repeat case_bool_decide; set_solver.
Qed.

(** X17. A click touches nothing but the [active] and [loading] marks: every
    element keeps its id, its attribute and every other class. *)
Theorem navClick_frame (navButtons sections : list nat) (this : nat)
    (doc : list Element) (j : nat) (e : Element) :
  doc !! j = Some e →
  ∃ e', navClick navButtons sections this doc !! j = Some e' ∧
        el_id e' = el_id e ∧ data_section e' = data_section e ∧
        ∀ c, c ≠ "active" → c ≠ "loading" →
             (c ∈ classList e' ↔ c ∈ classList e).
Proof.
  intros Hj. destruct (doc !! this) as [button|] eqn:Hb.
  - destruct (navClick_classes navButtons sections _ _ _ _ _ Hb Hj)
      as (e' & He' & Hid & Hds & Hcl).
    exists e'. repeat split; try assumption;
      rewrite Hcl; apply classes_after_other; assumption.
  - rewrite (navClick_None _ _ _ _ Hb). exists e. tauto.
Qed.

Lemma querySelectorAll_ext_from (c : string) (doc doc' : list Element)
    (f : nat → nat) :
  Forall2 (λ e e', c ∈ classList e ↔ c ∈ classList e') doc doc' →
  fst <$> filter (λ p : nat * Element, c ∈ classList p.2)
            (imap (λ i e, (f i, e)) doc)
  = fst <$> filter (λ p : nat * Element, c ∈ classList p.2)
              (imap (λ i e, (f i, e)) doc').
Proof.
  intros H. revert f. induction H as [|e e' l l' He _ IH]; intros f;
    [reflexivity|].
  cbn [imap]. rewrite !filter_cons. cbn [snd].
  specialize (IH (f ∘ S)). unfold compose in *.
  destruct (decide (c ∈ classList e)), (decide (c ∈ classList e'));
    try tauto; rewrite ?fmap_cons, IH; reflexivity.
Qed.

(** X18. The lists of buttons and sections found when the page was set up are
    still those of the page after any click. *)
Theorem navClick_keeps_lists (navButtons sections : list nat) (this : nat)
    (doc : list Element) (c : string) :
  c ≠ "active" → c ≠ "loading" →
  querySelectorAll c (navClick navButtons sections this doc)
  = querySelectorAll c doc.
Proof.
  intros Ha Hl. unfold querySelectorAll.
  apply (querySelectorAll_ext_from c _ _ (λ i, i)).
  apply Forall2_same_length_lookup_2; [apply navClick_length|].
  intros j e' e He' He.
  destruct (doc !! this) as [button|] eqn:Hb.
  - destruct (navClick_classes navButtons sections _ _ _ _ _ Hb He)
      as (e'' & He'' & _ & _ & Hcl).
    rewrite He' in He''. injection He'' as <-.
    rewrite Hcl. apply classes_after_other; assumption.
  - rewrite (navClick_None _ _ _ _ Hb), He in He'. injection He' as <-.
    reflexivity.
Qed.

Example sample_page_lists :
  initializeNavigation sample_page = ([0; 1; 2]%nat, [3; 4]%nat).
Proof. vm_compute. reflexivity. Qed.

Lemma navClick_sections_witness :
  hasClass "active" (navClick [0; 1; 2]%nat [3; 4]%nat 1 sample_page) 4 = true.
Proof.
  refine (proj2 (proj1 (navClick_sections [0; 1; 2]%nat [3; 4]%nat 1
                          sample_page _ eq_refl) 4%nat _ _) eq_refl).
  - set_solver.
  - vm_compute. lia.
Defined.

Lemma navClick_dangling_witness :
  hasClass "active" (navClick [0; 1; 2]%nat [3; 4]%nat 2 sample_page) 3
  = false.
Proof.
  refine (navClick_dangling [0; 1; 2]%nat [3; 4]%nat 2 sample_page _ 3
            eq_refl eq_refl _).
  set_solver.
Defined.

Lemma navClick_buttons_witness :
  hasClass "active" (navClick [0; 1; 2]%nat [3; 4]%nat 1 sample_page) 0
  = false.
Proof.
  refine (navClick_buttons [0; 1; 2]%nat [3; 4]%nat 1 sample_page _ 0
            eq_refl _ _ _ _).
  - set_solver.
  - intros t H. vm_compute in H. injection H as <-. set_solver.
  - set_solver.
  - vm_compute. lia.
Defined.

Lemma navClick_last_wins_witness :
  navClick [0; 1; 2]%nat [3; 4]%nat 1
    (navClick [0; 1; 2]%nat [3; 4]%nat 0 sample_page)
  = navClick [0; 1; 2]%nat [3; 4]%nat 1 sample_page.
Proof.
  refine (navClick_last_wins [0; 1; 2]%nat [3; 4]%nat 0 1 sample_page _
            _ eq_refl _).
  - set_solver.
  - intros t H. vm_compute in H. injection H as <-. set_solver.
Defined.

Lemma navClick_frame_witness :
  ∃ e', navClick [0; 1; 2]%nat [3; 4]%nat 0 sample_page !! 2%nat = Some e' ∧
        ("nav-btn" ∈ classList e').
Proof.
  destruct (navClick_frame [0; 1; 2]%nat [3; 4]%nat 0 sample_page 2 _ eq_refl)
    as (e' & He' & _ & _ & Hc).
  exists e'. split; [exact He'|].
  apply Hc; [discriminate | discriminate | set_solver].
Defined.

Lemma navClick_keeps_lists_witness :
  querySelectorAll "section" (navClick [0; 1; 2]%nat [3; 4]%nat 2 sample_page)
  = querySelectorAll "section" sample_page.
Proof. apply navClick_keeps_lists; discriminate. Defined.

(** ** The profile panel *)

Section NotNaNSum.
Variables prec emax : Z.

Lemma SFadd_not_nan (x y : spec_float) (s : bool) (m : positive) (e : Z) :
  x = S754_finite s m e -> y <> S754_nan -> SFadd prec emax x y <> S754_nan.
Proof.
  intros -> Hy. destruct y as [sy|sy| |sy my ey]; simpl; try discriminate;
    [congruence|]. apply binary_normalize_not_nan.
Qed.

Lemma SFsub_not_nan (x : spec_float) (s : bool) (m : positive) (e : Z) :
  x <> S754_nan -> (forall sx, x <> S754_infinity sx) ->
  SFsub prec emax x (S754_finite s m e) <> S754_nan.
Proof.
  intros Hx Hi. destruct x as [sx|sx| |sx mx ex]; simpl; try discriminate;
    [congruence|]. apply binary_normalize_not_nan.
Qed.
End NotNaNSum.

Lemma add_nan_l (y : float) : (nan + y)%float = nan.
Proof.
  apply Prim2SF_inj. rewrite add_spec.
  change (Prim2SF nan) with S754_nan. reflexivity.
Qed.

Lemma spending_point_not_nan (base variation r : float) :
  finite_nonzero base -> finite_nonzero variation -> is_finite r = true ->
  not_nan (JS.Math_round (base + (r - 0.5) * variation)%float).
Proof.
  intros Hb Hv Hr. apply Math_round_not_nan.
  unfold not_nan. rewrite add_spec. destruct Hb as (s & m & e & Hb).
  apply (SFadd_not_nan _ _ _ _ s m e Hb).
  apply mul_not_nan_r; [|exact Hv].
  unfold not_nan. rewrite sub_spec.
  change (Prim2SF 0.5) with (S754_finite false 4503599627370496 (-53)).
  apply SFsub_not_nan.
  - destruct (is_finite_true r Hr) as [[z ->] | (a & b & c & ->)]; discriminate.
  - intros sx.
    destruct (is_finite_true r Hr) as [[z ->] | (a & b & c & ->)]; discriminate.
Qed.

Lemma spending_points (d : AppData) (random : nat -> float) (userId : string)
    (profile : UserProfile.t) (old : list float) :
  userProfiles d !! userId = Some profile ->
  finite_nonzero (UserProfile.avg_amount profile) ->
  finite_nonzero (UserProfile.avg_amount profile * 0.3)%float ->
  (forall i, is_finite (random i) = true) ->
  exists data,
    updateSpendingChart d random userId (Some old) = Some data /\
    length data = 6%nat /\
    Forall (fun x => is_nan x = false) data.
Proof.
  intros Hu Hb Hv Hr. unfold updateSpendingChart. rewrite (get_own _ _ _ Hu).
  eexists. split; [reflexivity|]. split; [reflexivity|].
  apply Forall_forall. intros x Hx.
  apply list_elem_of_In, in_map_iff in Hx as (i & <- & _).
  apply is_nan_false, spending_point_not_nan; auto.
Qed.

(** X19. For a user of the shipped table and draws that are finite numbers, the
    spending chart gets six points and none of them is [NaN], whatever
    it showed before. *)
Theorem spending_chart_numbers (random : nat -> float) (userId : string)
    (profile : UserProfile.t) (old : list float) :
  userProfiles appData !! userId = Some profile ->
  (forall i, is_finite (random i) = true) ->
  exists data,
    updateSpendingChart appData random userId (Some old) = Some data /\
    length data = 6%nat /\
    Forall (fun x => is_nan x = false) data.
Proof.
  intros Hu Hr. apply (spending_points appData random userId profile old Hu);
    [| |exact Hr]; entries Hu; vm_compute; eauto.
Qed.

Lemma spending_chart_numbers_witness :
  exists data,
    updateSpendingChart appData (fun _ => 0.25%float) "USER_0003" (Some [])
      = Some data /\ length data = 6%nat.
Proof.
  destruct (spending_chart_numbers (fun _ => 0.25%float) "USER_0003"
              (UserProfile.mk 850 0 "Conservative Spenders" 6 "Groceries") [])
    as (data & Hd & Hl & _); [vm_compute; reflexivity | reflexivity |].
  exists data. split; assumption.
Defined.

(** X23. For a name inherited from [Object.prototype] the chart is not left
    alone: [avg_amount] reads [undefined], and the six points that replace
    the data are all [NaN], whatever the draws. *)
Theorem spending_chart_inherited (d : AppData) (random : nat -> float)
    (userId : string) (old : list float) :
  userProfiles d !! userId = None -> userId ∈ JS.Object_prototype ->
  updateSpendingChart d random userId (Some old) = Some (replicate 6 nan).
Proof.
  intros Hu Hp. unfold updateSpendingChart. rewrite (get_inherited _ _ Hu Hp).
  cbn [JS.field JS.ToNumber map seq replicate].
  rewrite !mul_nan_l, !mul_nan_r, !add_nan_l. reflexivity.
Qed.

Lemma spending_chart_inherited_witness :
  updateSpendingChart appData (fun _ => 0.25%float) "constructor"
    (Some [850; 900]%float)
  = Some [nan; nan; nan; nan; nan; nan].
Proof.
  apply (spending_chart_inherited appData (fun _ => 0.25%float) "constructor").
  - vm_compute. reflexivity.
  - apply (bool_decide_unpack _). vm_compute. exact I.
Defined.

Section ProfilePanelFacts.

Variable toLocaleString : float -> string.
Variable Number_toString : float -> string.

(** X20. With a user that names neither an entry of the profiles table nor
    an inherited property, with the empty user, or on a page without the
    panel element, the call completes and the spending chart keeps the data
    it had (those of the previous user); the panel, when there is one,
    shows the invitation to select a user. *)
Theorem updateUserProfile_unknown (d : AppData) (random : nat -> float)
    (userId : string) (page : ProfilePage) :
  (userProfiles d !! userId = None /\ userId ∉ JS.Object_prototype) \/
  userId = "" \/ profileDisplay page = None ->
  updateUserProfile toLocaleString Number_toString d random userId page =
  normal
    {| profileDisplay :=
         match profileDisplay page with
         | Some _ => Some "<p>Select a user to view profile</p>"
         | None => None
         end;
       spendingData := spendingData page |}.
Proof.
  intros H. unfold updateUserProfile.
  destruct page as [[html|] chart]; simpl; [|reflexivity].
  destruct H as [[Hu Hp] | [-> | H]]; [ | | discriminate H].
  - rewrite (get_absent _ _ Hu Hp). reflexivity.
  - destruct (JS.get (userProfiles d) ""); reflexivity.
Qed.

(** X22. For a name inherited from [Object.prototype], on a page with the
    panel, the call ends in a [TypeError] at
    [profile.avg_amount.toLocaleString()]: the panel keeps what it showed
    and the chart is not touched. *)
Theorem updateUserProfile_inherited (d : AppData) (random : nat -> float)
    (userId : string) (html : string) (chart : option (list float)) :
  userProfiles d !! userId = None -> userId ∈ JS.Object_prototype ->
  updateUserProfile toLocaleString Number_toString d random userId
    {| profileDisplay := Some html; spendingData := chart |}
  = TypeError {| profileDisplay := Some html; spendingData := chart |}.
Proof.
  intros Hu Hp. unfold updateUserProfile. cbn [profileDisplay].
  rewrite (get_inherited _ _ Hu Hp), (prototype_truthy _ Hp). reflexivity.
Qed.

End ProfilePanelFacts.

Lemma updateUserProfile_unknown_witness :
  updateUserProfile (fun _ => "") (fun _ => "") appData (fun _ => 0.5%float) ""
    {| profileDisplay := Some "old"; spendingData := Some [1%float] |} =
  normal {| profileDisplay := Some "<p>Select a user to view profile</p>";
            spendingData := Some [1%float] |} /\
  updateUserProfile (fun _ => "") (fun _ => "") appData (fun _ => 0.5%float)
    "USER_0001" {| profileDisplay := None; spendingData := Some [1%float] |} =
  normal {| profileDisplay := None; spendingData := Some [1%float] |} /\
  updateUserProfile (fun _ => "") (fun _ => "") appData (fun _ => 0.5%float)
    "USER_9999"
    {| profileDisplay := Some "old"; spendingData := Some [1%float] |} =
  normal {| profileDisplay := Some "<p>Select a user to view profile</p>";
            spendingData := Some [1%float] |}.
Proof.
  split; [|split].
  - apply (updateUserProfile_unknown (fun _ => "") (fun _ => "") appData
             (fun _ => 0.5%float) ""
             {| profileDisplay := Some "old";
                spendingData := Some [1%float] |}).
    right; left; reflexivity.
  - apply (updateUserProfile_unknown (fun _ => "") (fun _ => "") appData
             (fun _ => 0.5%float) "USER_0001"
             {| profileDisplay := None; spendingData := Some [1%float] |}).
    right; right; reflexivity.
  - apply (updateUserProfile_unknown (fun _ => "") (fun _ => "") appData
             (fun _ => 0.5%float) "USER_9999"
             {| profileDisplay := Some "old";
                spendingData := Some [1%float] |}).
    left. split; [vm_compute; reflexivity | exact not_inherited_USER_9999].
Defined.

Lemma updateUserProfile_inherited_witness :
  updateUserProfile (fun _ => "") (fun _ => "") appData (fun _ => 0.5%float)
    "constructor"
    {| profileDisplay := Some "old"; spendingData := Some [1%float] |} =
  TypeError {| profileDisplay := Some "old"; spendingData := Some [1%float] |}.
Proof.
  apply (updateUserProfile_inherited (fun _ => "") (fun _ => "") appData
           (fun _ => 0.5%float) "constructor" "old" (Some [1%float])).
  - vm_compute. reflexivity.
  - apply (bool_decide_unpack _). vm_compute. exact I.
Defined.
